(** * blockchain/transact.go: build, submit and wait for a transaction

    A shallow embedding of the handlers of [transact.go] (package
    [blockchain] of the bytom node) and the properties its specification
    states about them.

    The file calls into packages that it only imports ([txbuilder],
    [errors], [httperror], [reqid], [legacy], the chain, the logger, the
    clock).  They are kept abstract: their types are parameters of the
    development and their operations are the fields of one record,
    [Extern].  Every call that leaves the file is recorded as an [Event],
    so that "is never invoked" and "is called with" are statements about
    the events a run produces. *)

From Stdlib Require Import ZArith String List Lia DecimalString.
From stdpp Require Import base decidable option list strings gmap.

Set Default Proof Using "Type".

(** ** Values shared by every instance *)

(** [interface{}] values as [encoding/json] decodes them. A number keeps
    its literal: no handler of this file computes with it. *)
#[warnings="-register-all"]
Inductive jvalue : Type :=
| JNull
| JBool (b : bool)
| JNumber (literal : string)
| JString (s : string)
| JArray (items : list jvalue)
| JObject (fields : list (string * jvalue)).

(** One entry of [BuildRequest.Actions]: [map[string]interface{}]. *)
Abbreviation ActionSpec := (gmap string jvalue).

(** [act["type"].(string)]: the comma-ok type assertion on the looked-up
    value. A missing key yields the nil interface, whose assertion fails. *)
Definition type_string (act : ActionSpec) : option string :=
  match act !! "type"%string with
  | Some (JString typ) => Some typ
  | _ => None
  end.

(** A Go slice is nil or holds elements; [None] is the nil slice. *)
Abbreviation slice A := (option (list A)).

(** [append(s, x)] on a possibly nil slice. *)
Definition slice_append {A} (s : slice A) (x : A) : slice A :=
  Some (default [] s ++ [x]).

(** [time.Duration] counts nanoseconds in an [int64]. *)
Definition Nanosecond : Z := 1.
Definition Second : Z := 1000000000 * Nanosecond.
Definition Minute : Z := 60 * Second.

(** [var defaultTxTTL = 5 * time.Minute] *)
Definition defaultTxTTL : Z := 5 * Minute.

(** [%d] of a non-negative [int]. *)
Definition itoa (i : nat) : string := NilEmpty.string_of_uint (Nat.to_uint i).

(** [height++] on a [uint64]. *)
Definition uint64_incr (height : Z) : Z := ((height + 1) mod 2 ^ 64)%Z.

(** The first [k] values of a [uint64] counter that starts at [height]
    and is incremented before each use. *)
Fixpoint heights_from (height : Z) (k : nat) : list Z :=
  match k with
  | O => []
  | S k => uint64_incr height :: heights_from (uint64_incr height) k
  end.

(** The nine tags of the [switch] in [actionDecoder], in source order. *)
Definition registered_types : list string :=
  [ "control_account"; "control_address"; "control_program";
    "control_receiver"; "issue"; "retire"; "spend_account";
    "spend_account_unspent_output"; "set_transaction_reference_data" ]%string.

Inductive LogLevel : Type := LInfo | LError | LPrint.

(** What a Go call yields: it returns, or it panics. *)
Inductive outcome (A : Type) : Type :=
| Done (a : A)
| Panicked (what : string).
Arguments Done {A} a.
Arguments Panicked {A} what.

(** What the [select] of the wait loop does: one of its two channels
    becomes ready, or neither ever does. *)
Inductive Wakeup : Type := CtxDone | BlockLanded | NeverWakes.

Section Reactor.

(** Types of the imported packages. [ctxT] is a non-nil
    [context.Context]; [W] is the state of everything outside this file
    (chain, pool, key store, clock). *)
Context {ctxT error Action TxData legacyTx Hash Block : Type}.
Context {SigningInstruction TemplateMeta HttpResponse Response GoTime W : Type}.

(** [context.Context] is an interface: [None] is the nil context. *)
Definition Ctx : Type := option ctxT.

(** [txbuilder.Template]: the fields this file reads or writes, and the
    rest as [Meta]. *)
Record Template : Type := mkTemplate {
  Transaction : option legacyTx;
  SigningInstructions : slice SigningInstruction;
  Meta : TemplateMeta
}.

Definition set_SigningInstructions (tpl : Template)
    (si : slice SigningInstruction) : Template :=
  {| Transaction := Transaction tpl;
     SigningInstructions := si;
     Meta := Meta tpl |}.

Record BuildRequest : Type := mkBuildRequest {
  Tx : option TxData;
  Actions : list ActionSpec;
  TTL : Z
}.

(** The argument of [signSubmit]. *)
Record SignSubmitRequest : Type := mkSignSubmitRequest {
  Auth : string;
  Txs : Template
}.

(** [(T, error)] results of which exactly one side is set. *)
Inductive goresult (A : Type) : Type :=
| OK (a : A)
| Failed (e : error).
Arguments OK {A} a.
Arguments Failed {A} e.

(** [interface{}] values kept in the data of an error. *)
Inductive ErrData : Type :=
| IErrors (errs : list error)
| IResponses (resps : slice HttpResponse)
| IOther.

(** First argument of [resWrapper]. *)
Inductive RespData : Type :=
| DataNil
| DataTemplate (tpl : Template)
| DataTxid (m : gmap string string).

Inductive Event : Type :=
| EvFilterAliases (ctx : Ctx) (req : BuildRequest)
| EvBuild (ctx : Ctx) (tx : option TxData) (actions : list Action) (maxTime : GoTime)
| EvSign (ctx : Ctx) (tpl : Template) (auth : string)
| EvFinalizeTx (ctx : Ctx) (tx : option legacyTx)
| EvHeight
| EvBlockWaiter (height : Z)
| EvGetBlockByHeight (height : Z)
| EvLog (level : LogLevel) (msg : string).

(** Everything [transact.go] uses and does not define. An operation
    that can touch the node's state is a function of [W]; a decoder, a
    formatter or a constructor of errors is a function of its
    arguments. *)
Record Extern : Type := mkExtern {
  (* package errors *)
  errors_WithDetail : error -> string -> error;
  errors_WithData : error -> string -> ErrData -> error;
  errors_Wrap : error -> option string -> error;
  errors_Root : error -> error;
  errors_Data : error -> gmap string ErrData;
  Error : error -> string;
  error_eqb : error -> error -> bool;
  (* sentinels *)
  errBadActionType : error;
  errBadAction : error;
  ErrAction : error;
  ErrMissingRawTx : error;
  (* decoders *)
  accounts_DecodeControlAction : list Byte.byte -> Action * option error;
  txbuilder_DecodeControlAddressAction : list Byte.byte -> Action * option error;
  txbuilder_DecodeControlProgramAction : list Byte.byte -> Action * option error;
  txbuilder_DecodeControlReceiverAction : list Byte.byte -> Action * option error;
  assets_DecodeIssueAction : list Byte.byte -> Action * option error;
  txbuilder_DecodeRetireAction : list Byte.byte -> Action * option error;
  accounts_DecodeSpendAction : list Byte.byte -> Action * option error;
  accounts_DecodeSpendUTXOAction : list Byte.byte -> Action * option error;
  txbuilder_DecodeSetTxRefDataAction : list Byte.byte -> Action * option error;
  (* encoding/json, fmt, time *)
  json_Marshal : ActionSpec -> list Byte.byte * option error;
  fmt_q : string -> string;
  time_Now : W -> GoTime * W;
  time_Add : GoTime -> Z -> GoTime;
  (* the rest of package blockchain *)
  filterAliases : Ctx -> BuildRequest -> W -> (option error * BuildRequest) * W;
  errorFormatter_Format : error -> HttpResponse;
  resWrapper : RespData -> list error -> Response;
  (* package reqid *)
  reqid_New : W -> string * W;
  reqid_NewSubContext : Ctx -> string -> Ctx;
  (* package txbuilder *)
  txbuilder_Build : Ctx -> option TxData -> list Action -> GoTime ->
                    W -> (option Template * option error) * W;
  txbuilder_Sign : Ctx -> Template -> string -> W -> (option error * Template) * W;
  txbuilder_FinalizeTx : Ctx -> option legacyTx -> W -> option error * W;
  (* the chain and its blocks *)
  chain_Height : W -> Z * W;
  chain_GetBlockByHeight : Z -> W -> (option Block * option error) * W;
  block_Transactions : Block -> list legacyTx;
  tx_ID : legacyTx -> Hash;
  hash_String : Hash -> string;
  hash_eqb : Hash -> Hash -> bool;
  (* context.Context and the two channels of the select *)
  select_wait : ctxT -> Z -> W -> Wakeup * W;
  ctx_Err : ctxT -> W -> option error * W
}.

(** ** Calls, events and panics *)

Definition M (A : Type) : Type := W -> outcome A * W * list Event.

Definition ret {A} (a : A) : M A := fun w => (Done a, w, []).

Definition bind {A B} (m : M A) (k : A -> M B) : M B := fun w =>
  match m w with
  | (Done a, w1, es1) =>
      match k a w1 with
      | (r, w2, es2) => (r, w2, es1 ++ es2)
      end
  | (Panicked what, w1, es1) => (Panicked what, w1, es1)
  end.

Definition panic {A} (what : string) : M A := fun w => (Panicked what, w, []).

Definition emit (ev : Event) : M unit := fun w => (Done tt, w, [ev]).

(** A call that is recorded, and one that is not. *)
Definition call {A} (ev : Event) (f : W -> A * W) : M A := fun w =>
  match f w with
  | (a, w1) => (Done a, w1, [ev])
  end.

Definition quiet {A} (f : W -> A * W) : M A := fun w =>
  match f w with
  | (a, w1) => (Done a, w1, [])
  end.

Definition events_of {A} (r : outcome A * W * list Event) : list Event := r.2.
Definition result_of {A} (r : outcome A * W * list Event) : outcome A := r.1.1.
Definition world_of {A} (r : outcome A * W * list Event) : W := r.1.2.

(** The heights passed to [BlockWaiter] and to [GetBlockByHeight], and
    the contexts passed to [FinalizeTx], in the order of the calls. *)
Definition awaited_heights (es : list Event) : list Z :=
  omap (fun e => match e with EvBlockWaiter h => Some h | _ => None end) es.

Definition fetched_heights (es : list Event) : list Z :=
  omap (fun e => match e with EvGetBlockByHeight h => Some h | _ => None end) es.

Definition finalize_contexts (es : list Event) : list Ctx :=
  omap (fun e => match e with EvFinalizeTx c _ => Some c | _ => None end) es.


Notation "'do' x <- m ; k" := (bind m (fun x => k))
  (at level 60, m at next level, right associativity).
Notation "'do' ' pat <- m ; k" := (bind m (fun x => match x with pat => k end))
  (at level 60, pat pattern, m at next level, right associativity).

(** ** The handlers of [transact.go] *)

Variable X : Extern.

Definition Decoder : Type := list Byte.byte -> Action * option error.

(** [func (bcr *BlockchainReactor) actionDecoder(action string)]: the
    [switch] on the tag; [None] is the [nil, false] of the default case. *)
Definition actionDecoder (action : string) : option Decoder :=
  if decide (action = "control_account") then
    Some (accounts_DecodeControlAction X)
  else if decide (action = "control_address") then
    Some (txbuilder_DecodeControlAddressAction X)
  else if decide (action = "control_program") then
    Some (txbuilder_DecodeControlProgramAction X)
  else if decide (action = "control_receiver") then
    Some (txbuilder_DecodeControlReceiverAction X)
  else if decide (action = "issue") then
    Some (assets_DecodeIssueAction X)
  else if decide (action = "retire") then
    Some (txbuilder_DecodeRetireAction X)
  else if decide (action = "spend_account") then
    Some (accounts_DecodeSpendAction X)
  else if decide (action = "spend_account_unspent_output") then
    Some (accounts_DecodeSpendUTXOAction X)
  else if decide (action = "set_transaction_reference_data") then
    Some (txbuilder_DecodeSetTxRefDataAction X)
  else None.

(** The [for i, act := range req.Actions] loop of [buildSingle], from
    index [i] on, with the actions decoded so far. Every [return nil, err]
    of the loop body ends it. *)
Fixpoint decode_actions (i : nat) (acts : list ActionSpec)
    (actions : list Action) : goresult (list Action) :=
  match acts with
  | [] => OK actions
  | act :: rest =>
      match type_string act with
      | None =>
          Failed (errors_WithDetail X (errBadActionType X)
                    ("no action type provided on action " +:+ itoa i))
      | Some typ =>
          match actionDecoder typ with
          | None =>
              Failed (errors_WithDetail X (errBadActionType X)
                        ("unknown action type " +:+ fmt_q X typ
                           +:+ " on action " +:+ itoa i))
          | Some decoder =>
              match json_Marshal X act with
              | (_, Some err) => Failed err
              | (b, None) =>
                  match decoder b with
                  | (_, Some err) =>
                      Failed (errors_WithDetail X (errBadAction X)
                                (Error X err +:+ " on action " +:+ itoa i))
                  | (action, None) =>
                      decode_actions (S i) rest (actions ++ [action])
                  end
              end
          end
      end
  end.

(** The action has a registered type, marshals, and its decoder rejects
    the bytes: the [if err != nil] after [decoder(b)] is taken. *)
Definition decode_fails (act : ActionSpec) : Prop :=
  exists (typ : string) (decoder : Decoder) (a : Action) (err : error),
    type_string act = Some typ
    /\ actionDecoder typ = Some decoder
    /\ (json_Marshal X act).2 = None
    /\ decoder (json_Marshal X act).1 = (a, Some err).

(** [for _, innerErr := range ...] over the inner errors of an action
    error: [formattedErrs] starts as the nil slice. *)
Definition format_inner_errors (errs : list error) : slice HttpResponse :=
  fold_left (fun formattedErrs innerErr =>
               slice_append formattedErrs (errorFormatter_Format X innerErr))
            errs None.

(** [if errors.Root(err) == txbuilder.ErrAction { ... }]: the type
    assertion [errors.Data(err)["actions"].([]error)] has no comma-ok
    form, so it panics on anything else than a [[]error]. *)
Definition format_action_error (err : option error) : M (option error) :=
  match err with
  | Some e =>
      if error_eqb X (errors_Root X e) (ErrAction X) then
        match errors_Data X e !! "actions"%string with
        | Some (IErrors errs) =>
            ret (Some (errors_WithData X e "actions"
                         (IResponses (format_inner_errors errs))))
        | _ => panic "interface conversion"
        end
      else ret (Some e)
  | None => ret None
  end.

(** [func (bcr *BlockchainReactor) buildSingle(ctx, req)].
    [filterAliases] receives the request by pointer: what it leaves is
    the request the rest of the function reads. *)
Definition buildSingle (ctx : Ctx) (req : BuildRequest) : M (goresult Template) :=
  do '(err, req) <- call (EvFilterAliases ctx req) (filterAliases X ctx req);
  match err with
  | Some e => ret (Failed e)
  | None =>
      match decode_actions 0 (Actions req) [] with
      | Failed e => ret (Failed e)
      | OK actions =>
          let ttl := if decide (TTL req = 0%Z) then defaultTxTTL else TTL req in
          do now <- quiet (time_Now X);
          let maxTime := time_Add X now ttl in
          do '(tpl, err) <- call (EvBuild ctx (Tx req) actions maxTime)
                                 (txbuilder_Build X ctx (Tx req) actions maxTime);
          do err <- format_action_error err;
          match err with
          | Some e => ret (Failed e)
          | None =>
              match tpl with
              | None => panic "nil pointer dereference"
              | Some tpl =>
                  (* ensure null is never returned for signing instructions *)
                  match SigningInstructions tpl with
                  | None => ret (OK (set_SigningInstructions tpl (Some [])))
                  | Some _ => ret (OK tpl)
                  end
              end
          end
      end
  end.

(** [POST /build-transaction] *)
Definition build (ctx : Ctx) (buildReqs : BuildRequest) : M Response :=
  do id <- quiet (reqid_New X);
  let subctx := reqid_NewSubContext X ctx id in
  do r <- buildSingle subctx buildReqs;
  match r with
  | Failed err => ret (resWrapper X DataNil [err])
  | OK tmpl => ret (resWrapper X (DataTemplate tmpl) [])
  end.

(** [func (bcr *BlockchainReactor) submitSingle(ctx, tpl)], on a non-nil
    [tpl]. *)
Definition submitSingle (ctx : Ctx) (tpl : Template)
    : M (goresult (gmap string string)) :=
  match Transaction tpl with
  | None => ret (Failed (errors_Wrap X (ErrMissingRawTx X) None))
  | Some tx =>
      do err <- call (EvFinalizeTx ctx (Some tx))
                     (txbuilder_FinalizeTx X ctx (Some tx));
      match err with
      | Some e =>
          ret (Failed (errors_Wrap X e
                         (Some ("tx " +:+ hash_String X (tx_ID X tx)))))
      | None =>
          ret (OK ({[ "txid"%string := hash_String X (tx_ID X tx) ]}))
      end
  end.

(** [func (bcr *BlockchainReactor) finalizeTxWait(ctx, txTemplate,
    waitUntil)]. The call of [waitForTxInBlock] is a comment in the
    source, so the second test of [err] reads the result of
    [FinalizeTx] again. *)
Definition finalizeTxWait (ctx : Ctx) (txTemplate : Template)
    (waitUntil : string) : M (option error) :=
  do localHeight <- call EvHeight (chain_Height X);
  do _ <- emit (EvLog LInfo "Starting to finalize transaction");
  do err <- call (EvFinalizeTx ctx (Transaction txTemplate))
                 (txbuilder_FinalizeTx X ctx (Transaction txTemplate));
  match err with
  | Some e => ret (Some e)
  | None =>
      if decide (waitUntil = "none") then ret None
      else
        match err with
        | Some e => ret (Some e)
        | None =>
            if decide (waitUntil = "confirmed") then ret None
            else ret None
        end
  end.

(** [for _, confirmed := range b.Transactions] with its [return]. *)
Definition block_confirms (b : Block) (tx : legacyTx) : bool :=
  existsb (fun confirmed => hash_eqb X (tx_ID X confirmed) (tx_ID X tx))
          (block_Transactions X b).

(** The [for { ... }] of [waitForTxInBlock], run for at most [fuel]
    rounds. [Some (h, err)] is what the function returns; [None] says
    that it has not returned: the rounds are used up, or the [select]
    never wakes. *)
Fixpoint wait_loop (fuel : nat) (ctx : Ctx) (tx : legacyTx) (height : Z)
    : M (option (Z * option error)) :=
  match fuel with
  | O => ret None
  | S fuel =>
      let height := uint64_incr height in
      match ctx with
      | None => panic "nil pointer dereference"
      | Some c =>
          do _ <- emit (EvBlockWaiter height);
          do woken <- quiet (select_wait X c height);
          match woken with
          | NeverWakes => ret None
          | CtxDone =>
              do err <- quiet (ctx_Err X c);
              ret (Some (0%Z, err))
          | BlockLanded =>
              do '(b, err) <- call (EvGetBlockByHeight height)
                                   (chain_GetBlockByHeight X height);
              match err with
              | Some e =>
                  ret (Some (0%Z, Some (errors_Wrap X e
                                  (Some "getting block that just landed"%string))))
              | None =>
                  match b with
                  | None => panic "nil pointer dereference"
                  | Some b =>
                      if block_confirms b tx then ret (Some (height, None))
                      else
                        do err <- call (EvFinalizeTx ctx (Some tx))
                                       (txbuilder_FinalizeTx X ctx (Some tx));
                        match err with
                        | Some e => ret (Some (0%Z, Some e))
                        | None => wait_loop fuel ctx tx height
                        end
                  end
              end
          end
      end
  end.

(** [func (bcr *BlockchainReactor) waitForTxInBlock(ctx, tx, height)] *)
Definition waitForTxInBlock (fuel : nat) (ctx : Ctx) (tx : legacyTx)
    (height : Z) : M (option (Z * option error)) :=
  do _ <- emit (EvLog LPrint "waitForTxInBlock function");
  wait_loop fuel ctx tx height.

(** [POST /submit-transaction] *)
Definition submit (ctx : Ctx) (tpl : Template) : M Response :=
  do r <- submitSingle None tpl;
  match r with
  | Failed err =>
      do _ <- emit (EvLog LError "submit single tx");
      ret (resWrapper X DataNil [err])
  | OK txid =>
      do _ <- emit (EvLog LInfo "submit single tx");
      ret (resWrapper X (DataTxid txid) [])
  end.

(** [POST /sign-submit-transaction]. [Sign] works on [&x.Txs]: the
    template it leaves is the one submitted. *)
Definition signSubmit (ctx : Ctx) (x : SignSubmitRequest) : M Response :=
  do '(err, txs) <- call (EvSign ctx (Txs x) (Auth x))
                         (txbuilder_Sign X ctx (Txs x) (Auth x));
  match err with
  | Some e =>
      do _ <- emit (EvLog LError "fail on sign transaction.");
      ret (resWrapper X DataNil [e])
  | None =>
      do _ <- emit (EvLog LInfo "Sign Transaction complete.");
      do r <- submitSingle None txs;
      match r with
      | Failed e =>
          do _ <- emit (EvLog LError "submit single tx");
          ret (resWrapper X DataNil [e])
      | OK txID =>
          do _ <- emit (EvLog LInfo "submit single tx");
          ret (resWrapper X (DataTxid txID) [])
      end
  end.

(** ** What the loop of [buildSingle] does with one action *)

(** The action passes the four checks of the loop body and decodes to
    [a]. *)
Definition decodes_to (act : ActionSpec) (a : Action) : Prop :=
  exists (typ : string) (decoder : Decoder) (b : list Byte.byte),
    type_string act = Some typ
    /\ actionDecoder typ = Some decoder
    /\ json_Marshal X act = (b, None)
    /\ decoder b = (a, None).

(** The action at index [i] takes one of the four [return nil, ...] of
    the loop body, with error [e]. *)
Definition rejected_with (i : nat) (act : ActionSpec) (e : error) : Prop :=
  (type_string act = None
   /\ e = errors_WithDetail X (errBadActionType X)
            ("no action type provided on action " +:+ itoa i))
  \/ (exists typ : string,
        type_string act = Some typ
        /\ actionDecoder typ = None
        /\ e = errors_WithDetail X (errBadActionType X)
                 ("unknown action type " +:+ fmt_q X typ
                    +:+ " on action " +:+ itoa i))
  \/ (exists (typ : string) (decoder : Decoder) (b : list Byte.byte),
        type_string act = Some typ
        /\ actionDecoder typ = Some decoder
        /\ json_Marshal X act = (b, Some e))
  \/ (exists (typ : string) (decoder : Decoder) (b : list Byte.byte)
             (a : Action) (err : error),
        type_string act = Some typ
        /\ actionDecoder typ = Some decoder
        /\ json_Marshal X act = (b, None)
        /\ decoder b = (a, Some err)
        /\ e = errors_WithDetail X (errBadAction X)
                 (Error X err +:+ " on action " +:+ itoa i)).

(** The context an event was called with, for the calls that take one. *)
Definition event_ctx (e : Event) : option Ctx :=
  match e with
  | EvFilterAliases c _ => Some c
  | EvBuild c _ _ _ => Some c
  | EvSign c _ _ => Some c
  | EvFinalizeTx c _ => Some c
  | _ => None
  end.

(** The arguments of the calls of [FinalizeTx], in order. *)
Definition finalize_calls (es : list Event) : list (Ctx * option legacyTx) :=
  omap (fun e => match e with EvFinalizeTx c tx => Some (c, tx) | _ => None end) es.

End Reactor.

Arguments Template : clear implicits.
Arguments BuildRequest : clear implicits.
Arguments SignSubmitRequest : clear implicits.
Arguments goresult : clear implicits.
Arguments ErrData : clear implicits.
Arguments RespData : clear implicits.
Arguments Event : clear implicits.
Arguments Extern : clear implicits.
Arguments M : clear implicits.
Arguments OK {error A} a.
Arguments Failed {error A} e.
Arguments IErrors {error HttpResponse} errs.
Arguments IResponses {error HttpResponse} resps.
Arguments IOther {error HttpResponse}.

(** ** A small node to run the handlers on

    One instance of [Extern]: errors are records of a root name and the
    texts added to it, a transaction is its identifier, the chain lands
    empty blocks, the pool takes every transaction, and signing fails on a
    cancelled context or on the credential ["wrong"]. *)
Module Sample.

Record terror : Type := mkErr {
  t_root : string;
  t_wraps : list string;
  t_details : list string;
  t_inner : list string;
  t_formatted : slice string
}.

#[export] Instance terror_eq_dec : EqDecision terror.
Proof. solve_decision. Defined.

Definition new (msg : string) : terror := mkErr msg [] [] [] None.

Inductive sctx : Type := Background | Cancelled.

Record world : Type := mkWorld {
  w_height : Z;
  w_clock : Z;
  w_pool : list nat
}.

Abbreviation template := (Template nat string unit).
Abbreviation request := (BuildRequest unit).
Abbreviation errdata := (ErrData terror string).
Abbreviation respdata := (RespData nat string unit).

Definition with_detail (e : terror) (text : string) : terror :=
  mkErr (t_root e) (t_wraps e) (t_details e ++ [text]) (t_inner e) (t_formatted e).

Definition with_data (e : terror) (k : string) (v : errdata) : terror :=
  match v with
  | IResponses resps =>
      mkErr (t_root e) (t_wraps e) (t_details e) (t_inner e) resps
  | _ => e
  end.

Definition wrap (e : terror) (msg : option string) : terror :=
  match msg with
  | Some text =>
      mkErr (t_root e) (text :: t_wraps e) (t_details e) (t_inner e) (t_formatted e)
  | None => e
  end.

Definition root (e : terror) : terror := new (t_root e).

Definition data (e : terror) : gmap string errdata :=
  match t_inner e with
  | [] => ∅
  | msgs => {[ "actions"%string := IErrors (new <$> msgs) ]}
  end.

Definition message (e : terror) : string :=
  fold_right (fun text rest => text +:+ ": " +:+ rest) (t_root e) (t_wraps e).

Definition double_quote : string := String (Ascii.ascii_of_nat 34) EmptyString.

Definition quote (s : string) : string := double_quote +:+ s +:+ double_quote.

(** The payload of an action is its ["payload"] string; a decoder
    rejects the payload ["bad"] and otherwise yields the given tag. *)
Definition marshal (act : ActionSpec) : list Byte.byte * option terror :=
  match act !! "payload"%string with
  | Some (JString s) => (list_byte_of_string s, None)
  | _ => ([], None)
  end.

Definition decoder (tag : string) (b : list Byte.byte) : string * option terror :=
  if decide (string_of_list_byte b = "bad"%string) then (""%string, Some (new "bad payload"))
  else (tag, None).

Definition assemble (ctx : option sctx) (tx : option unit) (actions : list string)
    (maxTime : Z) (w : world) : (option template * option terror) * world :=
  ((Some (mkTemplate (Some (length actions)) None tt), None), w).

Definition sign (ctx : option sctx) (tpl : template) (auth : string) (w : world)
    : (option terror * template) * world :=
  match ctx with
  | Some Cancelled => ((Some (new "context canceled"), tpl), w)
  | _ =>
      if decide (auth = "wrong"%string) then ((Some (new "bad credential"), tpl), w)
      else ((None, mkTemplate (Transaction tpl) (Some ["signed"%string]) tt), w)
  end.

Definition finalize (ctx : option sctx) (tx : option nat) (w : world)
    : option terror * world :=
  match tx with
  | Some t => (None, mkWorld (w_height w) (w_clock w) (t :: w_pool w))
  | None => (Some (new "nil transaction"), w)
  end.

Definition wake (c : sctx) (height : Z) (w : world) : Wakeup * world :=
  match c with
  | Cancelled => (CtxDone, w)
  | Background => (BlockLanded, w)
  end.

Definition X : Extern sctx terror string unit nat nat (list nat)
                      string unit string (respdata * list terror) Z world :=
  {| errors_WithDetail := with_detail;
     errors_WithData := with_data;
     errors_Wrap := wrap;
     errors_Root := root;
     errors_Data := data;
     Error := message;
     error_eqb := fun e1 e2 => bool_decide (e1 = e2);
     errBadActionType := new "bad action type";
     errBadAction := new "bad action";
     ErrAction := new "errors occurred in one or more actions";
     ErrMissingRawTx := new "missing raw transaction";
     accounts_DecodeControlAction := decoder "control_account";
     txbuilder_DecodeControlAddressAction := decoder "control_address";
     txbuilder_DecodeControlProgramAction := decoder "control_program";
     txbuilder_DecodeControlReceiverAction := decoder "control_receiver";
     assets_DecodeIssueAction := decoder "issue";
     txbuilder_DecodeRetireAction := decoder "retire";
     accounts_DecodeSpendAction := decoder "spend_account";
     accounts_DecodeSpendUTXOAction := decoder "spend_account_unspent_output";
     txbuilder_DecodeSetTxRefDataAction := decoder "set_transaction_reference_data";
     json_Marshal := marshal;
     fmt_q := quote;
     time_Now := fun w => (w_clock w, w);
     time_Add := fun t d => (t + d)%Z;
     filterAliases := fun ctx req w => ((None, req), w);
     errorFormatter_Format := message;
     resWrapper := fun d errs => (d, errs);
     reqid_New := fun w => ("req"%string, w);
     reqid_NewSubContext := fun ctx id => ctx;
     txbuilder_Build := assemble;
     txbuilder_Sign := sign;
     txbuilder_FinalizeTx := finalize;
     chain_Height := fun w => (w_height w, w);
     chain_GetBlockByHeight := fun height w => ((Some [], None), w);
     block_Transactions := fun b => b;
     tx_ID := fun tx => tx;
     hash_String := fun h => itoa h;
     hash_eqb := Nat.eqb;
     select_wait := wake;
     ctx_Err := fun c w => (Some (new "context canceled"), w) |}.

Definition w0 : world := mkWorld 7 1000 [].

Definition action (typ payload : string) : ActionSpec :=
  {[ "type"%string := JString typ; "payload"%string := JString payload ]}.

(** [{"payload": ...}]: no ["type"] at all. *)
Definition untyped (payload : string) : ActionSpec :=
  {[ "payload"%string := JString payload ]}.

Definition req_ok : request :=
  mkBuildRequest None [action "spend_account" "a"; action "retire" "b"] 0.

Definition req_two_bad : request :=
  mkBuildRequest None [action "retire" "bad"; action "issue" "bad"] 0.

Definition req_bad_then_untyped : request :=
  mkBuildRequest None [action "retire" "bad"; untyped "p"] 0.

Definition req_untyped_then_bogus : request :=
  mkBuildRequest None [untyped "p"; action "bogus_type" "q"] 0.

Definition req_good_then_untyped : request :=
  mkBuildRequest None [action "issue" "a"; untyped "p"; action "nope" "q"] 0.

Definition req_good_then_bogus : request :=
  mkBuildRequest None [action "spend_account" "a"; action "bogus_type" "q"] 0.

Definition req_good_then_bad : request :=
  mkBuildRequest None
    [action "spend_account" "a"; action "retire" "bad"; action "issue" "bad"] 0.

Definition tpl_unbuilt : template := mkTemplate None (Some []) tt.
Definition tpl_built : template := mkTemplate (Some 42) (Some []) tt.

Definition max_uint64 : Z := 18446744073709551615.

End Sample.

(** ** Other nodes

    The sample node with four of its collaborators replaced: alias
    filtering, the assembly routine, pool admission and the block store. *)
Module Variants.

Definition node
    (filter : option Sample.sctx -> Sample.request -> Sample.world ->
              (option Sample.terror * Sample.request) * Sample.world)
    (assemble : option Sample.sctx -> option unit -> list string -> Z ->
                Sample.world ->
                (option Sample.template * option Sample.terror) * Sample.world)
    (finalize : option Sample.sctx -> option nat -> Sample.world ->
                option Sample.terror * Sample.world)
    (block_at : Z -> Sample.world ->
                (option (list nat) * option Sample.terror) * Sample.world)
    : Extern Sample.sctx Sample.terror string unit nat nat (list nat)
             string unit string (Sample.respdata * list Sample.terror) Z
             Sample.world :=
  {| errors_WithDetail := Sample.with_detail;
     errors_WithData := Sample.with_data;
     errors_Wrap := Sample.wrap;
     errors_Root := Sample.root;
     errors_Data := Sample.data;
     Error := Sample.message;
     error_eqb := error_eqb Sample.X;
     errBadActionType := Sample.new "bad action type";
     errBadAction := Sample.new "bad action";
     ErrAction := Sample.new "errors occurred in one or more actions";
     ErrMissingRawTx := Sample.new "missing raw transaction";
     accounts_DecodeControlAction := Sample.decoder "control_account";
     txbuilder_DecodeControlAddressAction := Sample.decoder "control_address";
     txbuilder_DecodeControlProgramAction := Sample.decoder "control_program";
     txbuilder_DecodeControlReceiverAction := Sample.decoder "control_receiver";
     assets_DecodeIssueAction := Sample.decoder "issue";
     txbuilder_DecodeRetireAction := Sample.decoder "retire";
     accounts_DecodeSpendAction := Sample.decoder "spend_account";
     accounts_DecodeSpendUTXOAction := Sample.decoder "spend_account_unspent_output";
     txbuilder_DecodeSetTxRefDataAction := Sample.decoder "set_transaction_reference_data";
     json_Marshal := Sample.marshal;
     fmt_q := Sample.quote;
     time_Now := fun w => (Sample.w_clock w, w);
     time_Add := fun t d => (t + d)%Z;
     filterAliases := filter;
     errorFormatter_Format := Sample.message;
     resWrapper := fun d errs => (d, errs);
     reqid_New := fun w => ("req"%string, w);
     reqid_NewSubContext := fun ctx id => Some Sample.Background;
     txbuilder_Build := assemble;
     txbuilder_Sign := Sample.sign;
     txbuilder_FinalizeTx := finalize;
     chain_Height := fun w => (Sample.w_height w, w);
     chain_GetBlockByHeight := block_at;
     block_Transactions := fun b => b;
     tx_ID := fun tx => tx;
     hash_String := fun h => itoa h;
     hash_eqb := Nat.eqb;
     select_wait := Sample.wake;
     ctx_Err := fun c w => (Some (Sample.new "context canceled"), w) |}.

Definition filter_ok (ctx : option Sample.sctx) (req : Sample.request)
    (w : Sample.world) : (option Sample.terror * Sample.request) * Sample.world :=
  ((None, req), w).

Definition filter_failing (ctx : option Sample.sctx) (req : Sample.request)
    (w : Sample.world) : (option Sample.terror * Sample.request) * Sample.world :=
  ((Some (Sample.new "alias not found"), req), w).

Definition empty_blocks (height : Z) (w : Sample.world)
    : (option (list nat) * option Sample.terror) * Sample.world :=
  ((Some [], None), w).

(** Transaction 42 lands in the block at height 9. *)
Definition tx42_at_9 (height : Z) (w : Sample.world)
    : (option (list nat) * option Sample.terror) * Sample.world :=
  ((Some (if decide (height = 9%Z) then [5; 42] else [5]), None), w).

Definition lost_blocks (height : Z) (w : Sample.world)
    : (option (list nat) * option Sample.terror) * Sample.world :=
  ((None, Some (Sample.new "block not found")), w).

Definition finalize_rejecting (ctx : option Sample.sctx) (tx : option nat)
    (w : Sample.world) : option Sample.terror * Sample.world :=
  (Some (Sample.new "duplicate transaction"), w).

(** An action error with two inner errors, one with none that an
    [[]error] holds, and an error of another root. *)
Definition action_error : Sample.terror :=
  Sample.mkErr "errors occurred in one or more actions" [] []
    ["insufficient funds"; "unknown asset"]%string None.

Definition bare_action_error : Sample.terror :=
  Sample.new "errors occurred in one or more actions".

Definition other_error : Sample.terror := Sample.new "transaction too large".

Definition assemble_returning (r : option Sample.template * option Sample.terror)
    (ctx : option Sample.sctx) (tx : option unit) (actions : list string)
    (maxTime : Z) (w : Sample.world)
    : (option Sample.template * option Sample.terror) * Sample.world :=
  (r, w).

Definition tpl_with_instructions : Sample.template :=
  mkTemplate (Some 3) (Some ["first"; "second"]%string) tt.

Definition with_filter_failing :=
  node filter_failing Sample.assemble Sample.finalize empty_blocks.

Definition with_assembly (r : option Sample.template * option Sample.terror) :=
  node filter_ok (assemble_returning r) Sample.finalize empty_blocks.

Definition with_finalize_rejecting :=
  node filter_ok Sample.assemble finalize_rejecting empty_blocks.

Definition with_tx42_at_9 :=
  node filter_ok Sample.assemble Sample.finalize tx42_at_9.

Definition with_lost_blocks :=
  node filter_ok Sample.assemble Sample.finalize lost_blocks.

Definition req_short_ttl : Sample.request :=
  mkBuildRequest None [Sample.action "issue" "a"] (30 * Second).

Definition req_negative_ttl : Sample.request :=
  mkBuildRequest None [Sample.action "issue" "a"] (-1).

Definition req_marshal_ok_mixed : Sample.request :=
  mkBuildRequest None
    [Sample.action "control_program" "a"; Sample.action "retire" "b";
     Sample.action "issue" "c"] 0.

End Variants.

(** ** The signer and the context, when given *)

Section Given.

Context {ctxT error Action TxData legacyTx Hash Block : Type}.
Context {SigningInstruction TemplateMeta HttpResponse Response GoTime W : Type}.

(** What a signing backend does with a template and a credential: it
    fails, or yields the signing instructions to put in the template. *)
Definition SigningBackend : Type :=
  Template legacyTx SigningInstruction TemplateMeta -> string -> W ->
  (option error * slice SigningInstruction) * W.

(** Modelled from the spec: [txbuilder.Sign], which is not among the
    sources. The specification (4.3, 6) describes [sign(ctx, template,
    credential)] as "mutating the Template's signing instructions in
    place via an external signing backend", a backend that, "given an
    authentication credential and a signing instruction, produce[s] a
    signature or fail[s]", and (5) names the confirmation waiter as the
    only component that waits on the caller's context. So the signer is
    handed the context and does not consult it: what it does is what
    the backend does with the template and the credential. *)
Definition spec_Sign (backend : SigningBackend) (ctx : @Ctx ctxT)
    (tpl : Template legacyTx SigningInstruction TemplateMeta) (auth : string)
    (w : W)
    : (option error * Template legacyTx SigningInstruction TemplateMeta) * W :=
  match backend tpl auth w with
  | ((err, sis), w1) => ((err, set_SigningInstructions tpl sis), w1)
  end.

(** The node [X] with [txbuilder.Sign] replaced. *)
Definition with_Sign
    (X : Extern ctxT error Action TxData legacyTx Hash Block
                SigningInstruction TemplateMeta HttpResponse Response GoTime W)
    (sign : @Ctx ctxT -> Template legacyTx SigningInstruction TemplateMeta ->
            string -> W ->
            (option error * Template legacyTx SigningInstruction TemplateMeta) * W)
    : Extern ctxT error Action TxData legacyTx Hash Block
             SigningInstruction TemplateMeta HttpResponse Response GoTime W :=
  {| errors_WithDetail := errors_WithDetail X;
     errors_WithData := errors_WithData X;
     errors_Wrap := errors_Wrap X;
     errors_Root := errors_Root X;
     errors_Data := errors_Data X;
     Error := Error X;
     error_eqb := error_eqb X;
     errBadActionType := errBadActionType X;
     errBadAction := errBadAction X;
     ErrAction := ErrAction X;
     ErrMissingRawTx := ErrMissingRawTx X;
     accounts_DecodeControlAction := accounts_DecodeControlAction X;
     txbuilder_DecodeControlAddressAction := txbuilder_DecodeControlAddressAction X;
     txbuilder_DecodeControlProgramAction := txbuilder_DecodeControlProgramAction X;
     txbuilder_DecodeControlReceiverAction := txbuilder_DecodeControlReceiverAction X;
     assets_DecodeIssueAction := assets_DecodeIssueAction X;
     txbuilder_DecodeRetireAction := txbuilder_DecodeRetireAction X;
     accounts_DecodeSpendAction := accounts_DecodeSpendAction X;
     accounts_DecodeSpendUTXOAction := accounts_DecodeSpendUTXOAction X;
     txbuilder_DecodeSetTxRefDataAction := txbuilder_DecodeSetTxRefDataAction X;
     json_Marshal := json_Marshal X;
     fmt_q := fmt_q X;
     time_Now := time_Now X;
     time_Add := time_Add X;
     filterAliases := filterAliases X;
     errorFormatter_Format := errorFormatter_Format X;
     resWrapper := resWrapper X;
     reqid_New := reqid_New X;
     reqid_NewSubContext := reqid_NewSubContext X;
     txbuilder_Build := txbuilder_Build X;
     txbuilder_Sign := sign;
     txbuilder_FinalizeTx := txbuilder_FinalizeTx X;
     chain_Height := chain_Height X;
     chain_GetBlockByHeight := chain_GetBlockByHeight X;
     block_Transactions := block_Transactions X;
     tx_ID := tx_ID X;
     hash_String := hash_String X;
     hash_eqb := hash_eqb X;
     select_wait := select_wait X;
     ctx_Err := ctx_Err X |}.

(** The node [X] with [ctx.Err()] replaced. *)
Definition with_ctx_Err
    (X : Extern ctxT error Action TxData legacyTx Hash Block
                SigningInstruction TemplateMeta HttpResponse Response GoTime W)
    (err : ctxT -> W -> option error * W)
    : Extern ctxT error Action TxData legacyTx Hash Block
             SigningInstruction TemplateMeta HttpResponse Response GoTime W :=
  {| errors_WithDetail := errors_WithDetail X;
     errors_WithData := errors_WithData X;
     errors_Wrap := errors_Wrap X;
     errors_Root := errors_Root X;
     errors_Data := errors_Data X;
     Error := Error X;
     error_eqb := error_eqb X;
     errBadActionType := errBadActionType X;
     errBadAction := errBadAction X;
     ErrAction := ErrAction X;
     ErrMissingRawTx := ErrMissingRawTx X;
     accounts_DecodeControlAction := accounts_DecodeControlAction X;
     txbuilder_DecodeControlAddressAction := txbuilder_DecodeControlAddressAction X;
     txbuilder_DecodeControlProgramAction := txbuilder_DecodeControlProgramAction X;
     txbuilder_DecodeControlReceiverAction := txbuilder_DecodeControlReceiverAction X;
     assets_DecodeIssueAction := assets_DecodeIssueAction X;
     txbuilder_DecodeRetireAction := txbuilder_DecodeRetireAction X;
     accounts_DecodeSpendAction := accounts_DecodeSpendAction X;
     accounts_DecodeSpendUTXOAction := accounts_DecodeSpendUTXOAction X;
     txbuilder_DecodeSetTxRefDataAction := txbuilder_DecodeSetTxRefDataAction X;
     json_Marshal := json_Marshal X;
     fmt_q := fmt_q X;
     time_Now := time_Now X;
     time_Add := time_Add X;
     filterAliases := filterAliases X;
     errorFormatter_Format := errorFormatter_Format X;
     resWrapper := resWrapper X;
     reqid_New := reqid_New X;
     reqid_NewSubContext := reqid_NewSubContext X;
     txbuilder_Build := txbuilder_Build X;
     txbuilder_Sign := txbuilder_Sign X;
     txbuilder_FinalizeTx := txbuilder_FinalizeTx X;
     chain_Height := chain_Height X;
     chain_GetBlockByHeight := chain_GetBlockByHeight X;
     block_Transactions := block_Transactions X;
     tx_ID := tx_ID X;
     hash_String := hash_String X;
     hash_eqb := hash_eqb X;
     select_wait := select_wait X;
     ctx_Err := err |}.

End Given.

(** A context as Go has it: [Err] is nil while the context is live and
    set once it is done. Transaction 42 lands at height 9. *)
Module GoContext.

Definition err (c : Sample.sctx) (w : Sample.world)
    : option Sample.terror * Sample.world :=
  match c with
  | Sample.Cancelled => (Some (Sample.new "context canceled"), w)
  | Sample.Background => (None, w)
  end.

Definition with_tx42_at_9 := with_ctx_Err Variants.with_tx42_at_9 err.

End GoContext.

(** ** Properties of the handlers, for every instance of [Extern] *)

Section Properties.

Context {ctxT error Action TxData legacyTx Hash Block : Type}.
Context {SigningInstruction TemplateMeta HttpResponse Response GoTime W : Type}.
Variable X : Extern ctxT error Action TxData legacyTx Hash Block
                    SigningInstruction TemplateMeta HttpResponse Response GoTime W.

Abbreviation ev :=
  (Event ctxT Action TxData legacyTx SigningInstruction TemplateMeta GoTime).
Abbreviation tmpl := (Template legacyTx SigningInstruction TemplateMeta).

(** *** The registry *)

Lemma actionDecoder_registered (typ : string) :
  typ ∈ registered_types -> is_Some (actionDecoder X typ).
Proof.
  unfold registered_types. rewrite !elem_of_cons, elem_of_nil.
  intros Hin. unfold actionDecoder.
  repeat (case_decide; [eexists; reflexivity|]).
  exfalso. intuition congruence.
Qed.

Lemma actionDecoder_unregistered (typ : string) :
  typ ∉ registered_types -> actionDecoder X typ = None.
Proof.
  unfold registered_types. rewrite !not_elem_of_cons.
  intros Hout. unfold actionDecoder.
  repeat (case_decide; [exfalso; intuition congruence|]).
  reflexivity.
Qed.

(** *** The decoding loop stops at the first action it cannot take *)

Lemma decode_actions_app (pre rest : list ActionSpec) :
  forall (i : nat) (acc acc' : list Action),
    decode_actions X i pre acc = OK acc' ->
    decode_actions X i (pre ++ rest) acc
    = decode_actions X (i + length pre) rest acc'.
Proof.
  induction pre as [|act pre IH]; intros i acc acc' Hpre; simpl in *.
  - inversion Hpre; subst. rewrite Nat.add_0_r. reflexivity.
  - destruct (type_string act) as [typ|]; [|discriminate].
    destruct (actionDecoder X typ) as [decoder|]; [|discriminate].
    destruct (json_Marshal X act) as [b [e|]]; [discriminate|].
    destruct (decoder b) as [action [e|]]; [discriminate|].
    rewrite (IH (S i) _ acc' Hpre). f_equal. lia.
Qed.

Lemma buildSingle_decode_failed (ctx : Ctx) (req req1 : BuildRequest TxData)
    (w w1 : W) (e : error) :
  filterAliases X ctx req w = ((None, req1), w1) ->
  decode_actions X 0 (Actions req1) [] = Failed e ->
  buildSingle X ctx req w = (Done (Failed e), w1, [EvFilterAliases ctx req]).
Proof.
  intros Hfilter Hdecode. unfold buildSingle, bind, call, ret.
  rewrite Hfilter, Hdecode. reflexivity.
Qed.

(** C5 (amended). When alias filtering succeeds and the action at index
    [i] is the first one the loop cannot take, because it has no [type]
    field holding a string (every action before it has a registered type,
    marshals and decodes), [buildSingle] fails with [errBadActionType]
    whose detail is "no action type provided on action i"; the assembly
    routine is not called. Actions after [i] play no part. *)
Theorem buildSingle_no_action_type (ctx : Ctx) (req req1 : BuildRequest TxData)
    (w w1 : W) (pre post : list ActionSpec) (act : ActionSpec)
    (acc : list Action) :
  filterAliases X ctx req w = ((None, req1), w1) ->
  Actions req1 = pre ++ act :: post ->
  decode_actions X 0 pre [] = OK acc ->
  type_string act = None ->
  buildSingle X ctx req w
  = (Done (Failed (errors_WithDetail X (errBadActionType X)
                     ("no action type provided on action " +:+ itoa (length pre)))),
     w1, [EvFilterAliases ctx req]).
Proof.
  intros Hfilter Hactions Hpre Htype.
  apply buildSingle_decode_failed with (req1 := req1); [exact Hfilter|].
  rewrite Hactions, (decode_actions_app pre (act :: post) 0 [] acc Hpre).
  simpl. rewrite Htype. reflexivity.
Qed.

(** C6 (amended). When alias filtering succeeds and the action at index
    [i] is the first one the loop cannot take, because its [type] string
    is not a registered tag, [buildSingle] fails with [errBadActionType]
    whose detail is "unknown action type <quoted tag> on action i"; and
    [actionDecoder] answers not-found exactly for the tags outside the
    nine registered ones. *)
Theorem buildSingle_unknown_action_type (ctx : Ctx) (req req1 : BuildRequest TxData)
    (w w1 : W) (pre post : list ActionSpec) (act : ActionSpec)
    (acc : list Action) (typ : string) :
  filterAliases X ctx req w = ((None, req1), w1) ->
  Actions req1 = pre ++ act :: post ->
  decode_actions X 0 pre [] = OK acc ->
  type_string act = Some typ ->
  typ ∉ registered_types ->
  buildSingle X ctx req w
  = (Done (Failed (errors_WithDetail X (errBadActionType X)
                     ("unknown action type " +:+ fmt_q X typ
                        +:+ " on action " +:+ itoa (length pre)))),
     w1, [EvFilterAliases ctx req])
  /\ (forall tag : string,
        actionDecoder X tag = None <-> tag ∉ registered_types)
  /\ length registered_types = 9 /\ NoDup registered_types.
Proof.
  intros Hfilter Hactions Hpre Htype Hout. split; [|split; [|split]].
  - apply buildSingle_decode_failed with (req1 := req1); [exact Hfilter|].
    rewrite Hactions, (decode_actions_app pre (act :: post) 0 [] acc Hpre).
    simpl. rewrite Htype, (actionDecoder_unregistered typ Hout). reflexivity.
  - intros tag. split.
    + intros Hnone Hin. destruct (actionDecoder_registered tag Hin) as [d Hd].
      congruence.
    + apply actionDecoder_unregistered.
  - reflexivity.
  - apply (bool_decide_unpack (NoDup registered_types)). vm_compute. exact I.
Qed.

(** C2 (amended). When alias filtering succeeds and the action at index
    [i] is the first one the loop cannot take, because its decoder
    rejects its payload with error [err], [buildSingle] stops there: it
    fails with the one error [errBadAction] whose detail is
    "<err.Error()> on action i", and the assembly routine is not called.
    Whatever follows index [i] is neither decoded nor reported. *)
Theorem buildSingle_first_decode_failure (ctx : Ctx) (req req1 : BuildRequest TxData)
    (w w1 : W) (pre post : list ActionSpec) (act : ActionSpec)
    (acc : list Action) (typ : string) (decoder : Decoder)
    (b : list Byte.byte) (a : Action) (err : error) :
  filterAliases X ctx req w = ((None, req1), w1) ->
  Actions req1 = pre ++ act :: post ->
  decode_actions X 0 pre [] = OK acc ->
  type_string act = Some typ ->
  actionDecoder X typ = Some decoder ->
  json_Marshal X act = (b, None) ->
  decoder b = (a, Some err) ->
  buildSingle X ctx req w
  = (Done (Failed (errors_WithDetail X (errBadAction X)
                     (Error X err +:+ " on action " +:+ itoa (length pre)))),
     w1, [EvFilterAliases ctx req]).
Proof.
  intros Hfilter Hactions Hpre Htype Hdec Hmarshal Hfail.
  apply buildSingle_decode_failed with (req1 := req1); [exact Hfilter|].
  rewrite Hactions, (decode_actions_app pre (act :: post) 0 [] acc Hpre).
  simpl. rewrite Htype, Hdec, Hmarshal, Hfail. reflexivity.
Qed.

(** *** What a successful build returns *)

(** C3. Whenever [buildSingle] returns a template, its
    [SigningInstructions] is not the nil slice, whatever the assembly
    routine produced. *)
Theorem buildSingle_signing_instructions_not_nil (ctx : Ctx)
    (req : BuildRequest TxData) (w : W) (tpl : tmpl) :
  result_of (buildSingle X ctx req w) = Done (OK tpl) ->
  exists sis : list SigningInstruction, SigningInstructions tpl = Some sis.
Proof.
  unfold buildSingle, bind, call, quiet, format_action_error, ret, panic, result_of.
  intros Hrun.
  repeat (case_match; simplify_eq/=); eauto.
Qed.

(** [format_action_error] calls nothing. *)
Lemma format_action_error_silent (err : option error) (w : W) :
  exists r, format_action_error X err w = (r, w, []).
Proof.
  unfold format_action_error, ret, panic.
  repeat case_match; eauto.
Qed.

(** C4. A request whose TTL reads zero (in Go an unset TTL is the zero
    value, so "unset" and "0" are one request) is built with the default
    of five minutes: once alias filtering and decoding have succeeded,
    the assembly routine is called, once, with
    [maxTime = time.Now().Add(5 * time.Minute)]. The TTL is read from the
    request as alias filtering leaves it. *)
Theorem buildSingle_zero_ttl_is_default (ctx : Ctx) (req req1 : BuildRequest TxData)
    (w w1 w2 : W) (actions : list Action) (now : GoTime) :
  filterAliases X ctx req w = ((None, req1), w1) ->
  decode_actions X 0 (Actions req1) [] = OK actions ->
  time_Now X w1 = (now, w2) ->
  TTL req1 = 0%Z ->
  events_of (buildSingle X ctx req w)
  = [EvFilterAliases ctx req;
     EvBuild ctx (Tx req1) actions (time_Add X now defaultTxTTL)]
  /\ defaultTxTTL = (5 * 60 * 1000000000)%Z.
Proof.
  intros Hfilter Hdecode Hnow Httl. split; [|reflexivity].
  unfold buildSingle, bind, call, quiet, ret, events_of.
  rewrite Hfilter, Hdecode, Hnow, Httl. simpl.
  destruct (txbuilder_Build X ctx (Tx req1) actions (time_Add X now defaultTxTTL) w2)
    as [[tpl err] w3].
  destruct (format_action_error_silent err w3) as [r ->].
  unfold panic. repeat case_match; simplify_eq/=; reflexivity.
Qed.

(** *** Submission *)

(** C7. A template without a transaction is refused by [submitSingle]
    with [errors.Wrap(txbuilder.ErrMissingRawTx)]: it returns (it does
    not panic), calls nothing (so [FinalizeTx] is not invoked) and leaves
    the node as it was; the [submit] handler answers with that error. *)
Theorem submitSingle_missing_raw_tx (ctx : Ctx) (tpl : tmpl) (w : W) :
  Transaction tpl = None ->
  submitSingle X ctx tpl w
  = (Done (Failed (errors_Wrap X (ErrMissingRawTx X) None)), w, [])
  /\ submit X ctx tpl w
     = (Done (resWrapper X DataNil [errors_Wrap X (ErrMissingRawTx X) None]),
        w, [EvLog LError "submit single tx"]).
Proof.
  intros Hnil. unfold submit, submitSingle, bind, emit, ret.
  rewrite Hnil. split; reflexivity.
Qed.

(** C8. When the sign stage fails, [signSubmit] answers with the error
    of [txbuilder.Sign] and nothing else: the only calls of the run are
    [Sign] and the log line, so [submitSingle], hence [FinalizeTx], is
    not invoked. In every run the first call is [Sign]. *)
Theorem signSubmit_sign_failure (ctx : Ctx)
    (x : SignSubmitRequest legacyTx SigningInstruction TemplateMeta)
    (w w1 : W) (e : error) (txs : tmpl) :
  txbuilder_Sign X ctx (Txs x) (Auth x) w = ((Some e, txs), w1) ->
  signSubmit X ctx x w
  = (Done (resWrapper X DataNil [e]), w1,
     [EvSign ctx (Txs x) (Auth x); EvLog LError "fail on sign transaction."])
  /\ finalize_contexts (events_of (signSubmit X ctx x w)) = []
  /\ (forall (ctx' : Ctx) (x' : SignSubmitRequest legacyTx SigningInstruction TemplateMeta)
             (w' : W),
        exists rest : list ev,
          events_of (signSubmit X ctx' x' w')
          = EvSign ctx' (Txs x') (Auth x') :: rest).
Proof.
  intros Hsign.
  assert (Hrun : signSubmit X ctx x w
                 = (Done (resWrapper X DataNil [e]), w1,
                    [EvSign ctx (Txs x) (Auth x);
                     EvLog LError "fail on sign transaction."])).
  { unfold signSubmit, bind, call, emit, ret. rewrite Hsign. reflexivity. }
  split; [exact Hrun|]. split; [rewrite Hrun; reflexivity|].
  intros ctx' x' w'. unfold signSubmit, bind, call, events_of.
  destruct (txbuilder_Sign X ctx' (Txs x') (Auth x') w') as [[err txs'] w2].
  destruct err as [e'|]; simpl; [eauto|].
  destruct (submitSingle X None txs' w2) as [[[[m|e']|what] w3] es]; simpl; eauto.
Qed.

(** [submitSingle] hands [FinalizeTx] the context it was given. *)
Lemma submitSingle_finalize_contexts (c : Ctx) (tpl : tmpl) (w : W) :
  Forall (fun c' => c' = c) (finalize_contexts (events_of (submitSingle X c tpl w))).
Proof.
  unfold submitSingle, bind, call, ret, events_of, finalize_contexts.
  repeat (case_match; simplify_eq/=); repeat constructor.
Qed.

Lemma finalize_contexts_app (es1 es2 : list ev) :
  finalize_contexts (es1 ++ es2) = finalize_contexts es1 ++ finalize_contexts es2.
Proof. unfold finalize_contexts. apply omap_app. Qed.

Lemma submit_finalize_contexts (ctx : Ctx) (tpl : tmpl) (w : W) :
  Forall (fun c => c = None) (finalize_contexts (events_of (submit X ctx tpl w))).
Proof.
  pose proof (submitSingle_finalize_contexts None tpl w) as Hsub.
  unfold submit, bind, emit, ret, events_of in *.
  destruct (submitSingle X None tpl w) as [[[[m|e]|what] w1] es]; simpl in *;
    rewrite ?finalize_contexts_app, ?app_nil_r; exact Hsub.
Qed.

Lemma signSubmit_finalize_contexts (ctx : Ctx)
    (x : SignSubmitRequest legacyTx SigningInstruction TemplateMeta) (w : W) :
  Forall (fun c => c = None) (finalize_contexts (events_of (signSubmit X ctx x w))).
Proof.
  unfold signSubmit, bind, call, emit, ret, events_of.
  destruct (txbuilder_Sign X ctx (Txs x) (Auth x) w) as [[[e|] txs] w1]; simpl;
    [constructor|].
  pose proof (submitSingle_finalize_contexts None txs w1) as Hsub.
  unfold events_of in Hsub.
  destruct (submitSingle X None txs w1) as [[[[m|e]|what] w2] es]; simpl in *;
    rewrite ?finalize_contexts_app, ?app_nil_r; exact Hsub.
Qed.

(** The [submit] handler does not read its context: two runs that
    differ in the context only are the same run. [signSubmit] hands its
    context to [txbuilder.Sign] and to nothing else: two runs on which
    the sign stage does the same return the same response and leave the
    same node; and every [FinalizeTx] of either handler receives the nil
    context. *)
Lemma submit_context_independent (ctx1 ctx2 : Ctx) (tpl : tmpl)
    (x : SignSubmitRequest legacyTx SigningInstruction TemplateMeta) (w : W) :
  txbuilder_Sign X ctx1 (Txs x) (Auth x) w = txbuilder_Sign X ctx2 (Txs x) (Auth x) w ->
  submit X ctx1 tpl w = submit X ctx2 tpl w
  /\ result_of (signSubmit X ctx1 x w) = result_of (signSubmit X ctx2 x w)
  /\ world_of (signSubmit X ctx1 x w) = world_of (signSubmit X ctx2 x w)
  /\ Forall (fun c => c = None) (finalize_contexts (events_of (submit X ctx1 tpl w)))
  /\ Forall (fun c => c = None) (finalize_contexts (events_of (signSubmit X ctx1 x w))).
Proof.
  intros Hsign. split; [reflexivity|].
  split; [|split; [|split]].
  - unfold signSubmit, bind, call, result_of. rewrite Hsign.
    destruct (txbuilder_Sign X ctx2 (Txs x) (Auth x) w) as [[[e|] txs] w1];
      simpl; [reflexivity|].
    destruct (submitSingle X None txs w1) as [[[[m|e]|what] w2] es]; reflexivity.
  - unfold signSubmit, bind, call, world_of. rewrite Hsign.
    destruct (txbuilder_Sign X ctx2 (Txs x) (Auth x) w) as [[[e|] txs] w1];
      simpl; [reflexivity|].
    destruct (submitSingle X None txs w1) as [[[[m|e]|what] w2] es]; reflexivity.
  - apply submit_finalize_contexts.
  - apply signSubmit_finalize_contexts.
Qed.

(** *** Waiting for confirmation *)

(** [finalizeTxWait] is [FinalizeTx] after a read of the height: it
    returns what [FinalizeTx] returns, for every [waitUntil], and awaits
    or fetches no block. *)
Lemma finalizeTxWait_is_finalize (ctx : Ctx) (txTemplate : tmpl)
    (waitUntil : string) (w w1 w2 : W) (h : Z) (err : option error) :
  chain_Height X w = (h, w1) ->
  txbuilder_FinalizeTx X ctx (Transaction txTemplate) w1 = (err, w2) ->
  finalizeTxWait X ctx txTemplate waitUntil w
  = (Done err, w2,
     [EvHeight; EvLog LInfo "Starting to finalize transaction";
      EvFinalizeTx ctx (Transaction txTemplate)]).
Proof.
  intros Hheight Hfinalize. unfold finalizeTxWait, bind, call, emit, ret.
  rewrite Hheight. simpl. rewrite Hfinalize.
  destruct err; [reflexivity|]. repeat case_decide; reflexivity.
Qed.

Lemma awaited_heights_app (es1 es2 : list ev) :
  awaited_heights (es1 ++ es2) = awaited_heights es1 ++ awaited_heights es2.
Proof. unfold awaited_heights. apply omap_app. Qed.

Lemma fetched_heights_app (es1 es2 : list ev) :
  fetched_heights (es1 ++ es2) = fetched_heights es1 ++ fetched_heights es2.
Proof. unfold fetched_heights. apply omap_app. Qed.

(** The loop awaits the successive values of its counter, one per round,
    and fetches a block only at a height it has just awaited. *)
Lemma wait_loop_heights (fuel : nat) :
  forall (ctx : Ctx) (tx : legacyTx) (height : Z) (w : W),
  exists k : nat,
    k <= fuel
    /\ awaited_heights (events_of (wait_loop X fuel ctx tx height w))
       = heights_from height k
    /\ fetched_heights (events_of (wait_loop X fuel ctx tx height w))
       `prefix_of` heights_from height k.
Proof.
  induction fuel as [|fuel IH]; intros ctx tx height w.
  - exists 0. simpl. split; [lia|]. split; [reflexivity|]. apply prefix_nil.
  - destruct (wait_loop X (S fuel) ctx tx height w) as [[r w'] es] eqn:Hrun.
    revert Hrun. cbn [wait_loop].
    unfold bind, emit, quiet, call, ret, panic, events_of.
    repeat case_match; intros Hrun; simplify_eq/=;
      try (exists 0; split; [lia|]; split; [reflexivity|apply prefix_nil]);
      try (exists 1; split; [lia|]; split; [reflexivity|];
           first [reflexivity|apply prefix_nil]).
    match goal with
    | Hrec : wait_loop X fuel ?c ?t ?h ?w3 = _ |- _ =>
        destruct (IH c t h w3) as (k & Hk & Hawait & Hfetch);
        rewrite Hrec in Hawait, Hfetch
    end.
    unfold events_of in *. simpl in *.
    exists (S k). split; [lia|]. simpl. rewrite Hawait. split; [reflexivity|].
    apply prefix_cons. exact Hfetch.
Qed.

Lemma heights_from_no_wrap (k : nat) :
  forall height : Z,
    (0 <= height)%Z -> (height + Z.of_nat k < 2 ^ 64)%Z ->
    heights_from height k = (fun j : nat => (height + Z.of_nat j)%Z) <$> seq 1 k.
Proof.
  change (2 ^ 64)%Z with 18446744073709551616%Z.
  induction k as [|k IH]; intros height Hlo Hhi; [reflexivity|].
  cbn [heights_from seq fmap list_fmap].
  assert (Hincr : uint64_incr height = (height + 1)%Z).
  { unfold uint64_incr. change (2 ^ 64)%Z with 18446744073709551616%Z.
    apply Z.mod_small. lia. }
  rewrite Hincr. f_equal.
  rewrite IH by lia.
  rewrite <- (fmap_S_seq 1 k), <- list_fmap_compose.
  apply list_fmap_ext. intros i j _. simpl. lia.
Qed.

(** C9 (amended). From lower bound [H], the heights handed to
    [BlockWaiter] are the successive values of the [uint64] counter, and
    a block is fetched only at a height just awaited. As long as the
    counter does not wrap (the [k] heights awaited satisfy
    [H + k < 2^64]) they are exactly [H+1, ..., H+k]: strictly
    increasing, without repetition, and all above [H]. *)
Theorem waitForTxInBlock_heights_increase (fuel : nat) (ctx : Ctx)
    (tx : legacyTx) (H : Z) (w : W) :
  (0 <= H)%Z ->
  (H + Z.of_nat (length (awaited_heights
                           (events_of (waitForTxInBlock X fuel ctx tx H w))))
   < 2 ^ 64)%Z ->
  awaited_heights (events_of (waitForTxInBlock X fuel ctx tx H w))
  = (fun j : nat => (H + Z.of_nat j)%Z)
      <$> seq 1 (length (awaited_heights
                           (events_of (waitForTxInBlock X fuel ctx tx H w))))
  /\ fetched_heights (events_of (waitForTxInBlock X fuel ctx tx H w))
     `prefix_of` awaited_heights (events_of (waitForTxInBlock X fuel ctx tx H w))
  /\ length (awaited_heights (events_of (waitForTxInBlock X fuel ctx tx H w))) <= fuel
  /\ (forall (i j : nat) (hi hj : Z),
        awaited_heights (events_of (waitForTxInBlock X fuel ctx tx H w)) !! i = Some hi ->
        awaited_heights (events_of (waitForTxInBlock X fuel ctx tx H w)) !! j = Some hj ->
        i < j -> (hi < hj)%Z)
  /\ NoDup (awaited_heights (events_of (waitForTxInBlock X fuel ctx tx H w)))
  /\ Forall (fun h => (H < h)%Z)
            (awaited_heights (events_of (waitForTxInBlock X fuel ctx tx H w))).
Proof.
  set (awaited := awaited_heights (events_of (waitForTxInBlock X fuel ctx tx H w))).
  set (fetched := fetched_heights (events_of (waitForTxInBlock X fuel ctx tx H w))).
  intros Hlo Hhi.
  destruct (wait_loop_heights fuel ctx tx H w) as (k & Hk & Hawait & Hfetch).
  assert (Ha : awaited = heights_from H k).
  { subst awaited. unfold waitForTxInBlock, bind, emit, events_of in *.
    destruct (wait_loop X fuel ctx tx H w) as [[r w1] es]. exact Hawait. }
  assert (Hf : fetched `prefix_of` heights_from H k).
  { subst fetched. unfold waitForTxInBlock, bind, emit, events_of in *.
    destruct (wait_loop X fuel ctx tx H w) as [[r w1] es]. exact Hfetch. }
  assert (Hlen : length awaited = k).
  { rewrite Ha. clear. generalize H. induction k as [|k IH]; intros h; simpl;
      [reflexivity|]. rewrite IH. reflexivity. }
  rewrite Hlen in *.
  assert (Heq : awaited = (fun j : nat => (H + Z.of_nat j)%Z) <$> seq 1 k).
  { rewrite Ha. apply heights_from_no_wrap; assumption. }
  split; [exact Heq|]. split; [rewrite Ha; exact Hf|]. split; [exact Hk|].
  assert (Hlook : forall (i : nat) (h : Z),
             awaited !! i = Some h -> h = (H + Z.of_nat (1 + i))%Z).
  { intros i h. rewrite Heq, list_lookup_fmap.
    destruct (seq 1 k !! i) as [n|] eqn:Hn; [|discriminate].
    apply lookup_seq in Hn as [-> _]. simpl. congruence. }
  split; [|split].
  - intros i j hi hj Hi Hj Hij.
    apply Hlook in Hi. apply Hlook in Hj. lia.
  - rewrite Heq. apply NoDup_fmap_2; [|apply NoDup_seq].
    intros a b Hab. lia.
  - apply Forall_forall. intros h Hin.
    apply list_elem_of_lookup in Hin as [i Hi]. apply Hlook in Hi. lia.
Qed.

End Properties.

(** *** The handlers and the caller's context *)

Section CallerContext.

Context {ctxT error Action TxData legacyTx Hash Block : Type}.
Context {SigningInstruction TemplateMeta HttpResponse Response GoTime W : Type}.
Variable X : Extern ctxT error Action TxData legacyTx Hash Block
                    SigningInstruction TemplateMeta HttpResponse Response GoTime W.
Variable backend : @SigningBackend error legacyTx SigningInstruction TemplateMeta W.


End CallerContext.

(** ** The handlers on the sample node *)

(** On the sample node no landed block holds a transaction: the wait
    loop re-submits after every block and never returns. *)
Lemma sample_wait_loop_never_returns (fuel : nat) :
  forall (tx : nat) (height : Z) (w : Sample.world),
    result_of (wait_loop Sample.X fuel (Some Sample.Background) tx height w)
    = Done None.
Proof.
  induction fuel as [|fuel IH]; intros tx height w; [reflexivity|].
  cbn [wait_loop]. unfold bind, emit, quiet, call, ret, result_of in *. simpl.
  specialize (IH tx (uint64_incr height)
                 (Sample.mkWorld (Sample.w_height w) (Sample.w_clock w)
                                 (tx :: Sample.w_pool w))).
  destruct (wait_loop Sample.X fuel (Some Sample.Background) tx
              (uint64_incr height) _) as [[r w1] es].
  simpl in *. exact IH.
Qed.

(** C1 (the code at the failing input). On a node at height 7 whose
    blocks hold no transaction, [finalizeTxWait] with [waitUntil =
    "confirmed"] returns a nil error right after [FinalizeTx]: it awaits
    and fetches no block, although the wait loop, run from there, would
    never find the transaction in a block. *)
Theorem finalizeTxWait_confirmed_does_not_wait :
  finalizeTxWait Sample.X (Some Sample.Background) Sample.tpl_built
                 "confirmed" Sample.w0
  = (Done None, Sample.mkWorld 7 1000 [42],
     [EvHeight; EvLog LInfo "Starting to finalize transaction";
      EvFinalizeTx (Some Sample.Background) (Some 42)])
  /\ awaited_heights
       (events_of (finalizeTxWait Sample.X (Some Sample.Background)
                     Sample.tpl_built "confirmed" Sample.w0)) = []
  /\ fetched_heights
       (events_of (finalizeTxWait Sample.X (Some Sample.Background)
                     Sample.tpl_built "confirmed" Sample.w0)) = []
  /\ (forall fuel : nat,
        result_of (waitForTxInBlock Sample.X fuel (Some Sample.Background) 42 7
                     (Sample.mkWorld 7 1000 [42])) = Done None).
Proof.
  split; [|split; [|split]].
  - apply finalizeTxWait_is_finalize with (w1 := Sample.w0) (h := 7%Z); reflexivity.
  - reflexivity.
  - reflexivity.
  - intros fuel.
    pose proof (sample_wait_loop_never_returns fuel 42 7
                  (Sample.mkWorld 7 1000 [42])) as Hloop.
    unfold waitForTxInBlock, bind, emit, result_of in *.
    destruct (wait_loop Sample.X fuel (Some Sample.Background) 42 7 _)
      as [[r w1] es].
    exact Hloop.
Qed.

(** C2 (as stated, refuted). Both actions of the request fail to
    decode, yet the error of [buildSingle] is the one of action 0 alone:
    its only detail is about action 0 and it carries no list of
    per-action errors. *)
Lemma buildSingle_decode_failures_not_aggregated :
  (forall i act, Actions Sample.req_two_bad !! i = Some act ->
     decode_fails Sample.X act)
  /\ length (Actions Sample.req_two_bad) = 2
  /\ buildSingle Sample.X None Sample.req_two_bad Sample.w0
     = (Done (Failed (Sample.with_detail (Sample.new "bad action")
                        "bad payload on action 0")),
        Sample.w0, [EvFilterAliases None Sample.req_two_bad])
  /\ Sample.t_details (Sample.with_detail (Sample.new "bad action")
                         "bad payload on action 0")
     = ["bad payload on action 0"%string]
  /\ errors_Data Sample.X (Sample.with_detail (Sample.new "bad action")
                             "bad payload on action 0") !! "actions"%string
     = None.
Proof.
  split; [|repeat split; reflexivity].
  intros [|[|i]] act Hact; simpl in Hact; simplify_eq.
  - exists "retire"%string, (Sample.decoder "retire"), ""%string,
      (Sample.new "bad payload").
    repeat split; reflexivity.
  - exists "issue"%string, (Sample.decoder "issue"), ""%string,
      (Sample.new "bad payload").
    repeat split; reflexivity.
Qed.

(** C2 (amended), on a request whose actions 1 and 2 both fail to
    decode: only action 1 is reported. *)
Lemma buildSingle_first_decode_failure_witness :
  buildSingle Sample.X None Sample.req_good_then_bad Sample.w0
  = (Done (Failed (Sample.with_detail (Sample.new "bad action")
                     "bad payload on action 1")),
     Sample.w0, [EvFilterAliases None Sample.req_good_then_bad]).
Proof.
  apply (buildSingle_first_decode_failure Sample.X None
           Sample.req_good_then_bad Sample.req_good_then_bad
           Sample.w0 Sample.w0
           [Sample.action "spend_account" "a"]
           [Sample.action "issue" "bad"]
           (Sample.action "retire" "bad")
           ["spend_account"%string] "retire"
           (Sample.decoder "retire") (list_byte_of_string "bad")
           ""%string (Sample.new "bad payload"));
    reflexivity.
Defined.

(** C3, on a build whose assembly routine leaves the signing
    instructions nil. *)
Lemma buildSingle_signing_instructions_not_nil_witness :
  exists sis : list string,
    SigningInstructions (mkTemplate (Some 2) (Some []) tt : Sample.template)
    = Some sis.
Proof.
  apply (buildSingle_signing_instructions_not_nil Sample.X None
           Sample.req_ok Sample.w0).
  reflexivity.
Defined.

(** C4, on a request with TTL 0 at clock 1000. *)
Lemma buildSingle_zero_ttl_is_default_witness :
  events_of (buildSingle Sample.X None Sample.req_ok Sample.w0)
  = [EvFilterAliases None Sample.req_ok;
     EvBuild None None ["spend_account"%string; "retire"%string]
       (1000 + 300000000000)%Z]
  /\ defaultTxTTL = (5 * 60 * 1000000000)%Z.
Proof.
  apply (buildSingle_zero_ttl_is_default Sample.X None
           Sample.req_ok Sample.req_ok Sample.w0 Sample.w0 Sample.w0
           ["spend_account"%string; "retire"%string] 1000%Z);
    reflexivity.
Defined.

(** C5 (as stated, refuted). The action at index 1 has no [type], yet
    the error of [buildSingle] is [errBadAction] about action 0, not
    [errBadActionType] about action 1. *)
Lemma buildSingle_missing_type_not_named :
  (exists act, Actions Sample.req_bad_then_untyped !! 1 = Some act
               /\ type_string act = None)
  /\ result_of (buildSingle Sample.X None Sample.req_bad_then_untyped Sample.w0)
     = Done (Failed (errors_WithDetail Sample.X (errBadAction Sample.X)
                       "bad payload on action 0"))
  /\ result_of (buildSingle Sample.X None Sample.req_bad_then_untyped Sample.w0)
     <> Done (Failed (errors_WithDetail Sample.X (errBadActionType Sample.X)
                        ("no action type provided on action " +:+ itoa 1)))
  /\ errors_Root Sample.X
       (errors_WithDetail Sample.X (errBadAction Sample.X) "bad payload on action 0")
     <> errBadActionType Sample.X.
Proof.
  split; [|split; [|split]].
  - eexists. split; reflexivity.
  - reflexivity.
  - vm_compute. discriminate.
  - vm_compute. discriminate.
Qed.

(** C5 (amended), on a request whose action 1 is the first the loop
    cannot take. *)
Lemma buildSingle_no_action_type_witness :
  buildSingle Sample.X None Sample.req_good_then_untyped Sample.w0
  = (Done (Failed (Sample.with_detail (Sample.new "bad action type")
                     "no action type provided on action 1")),
     Sample.w0, [EvFilterAliases None Sample.req_good_then_untyped]).
Proof.
  apply (buildSingle_no_action_type Sample.X None
           Sample.req_good_then_untyped Sample.req_good_then_untyped
           Sample.w0 Sample.w0
           [Sample.action "issue" "a"] [Sample.action "nope" "q"]
           (Sample.untyped "p") ["issue"%string]);
    reflexivity.
Defined.

(** C6 (as stated, refuted). The action at index 1 has the unregistered
    type ["bogus_type"], yet the error of [buildSingle] is about the
    missing type of action 0 and names neither the tag nor index 1. *)
Lemma buildSingle_unknown_type_not_named :
  (exists act, Actions Sample.req_untyped_then_bogus !! 1 = Some act
               /\ type_string act = Some "bogus_type"%string)
  /\ actionDecoder Sample.X "bogus_type" = None
  /\ result_of (buildSingle Sample.X None Sample.req_untyped_then_bogus Sample.w0)
     = Done (Failed (errors_WithDetail Sample.X (errBadActionType Sample.X)
                       "no action type provided on action 0"))
  /\ result_of (buildSingle Sample.X None Sample.req_untyped_then_bogus Sample.w0)
     <> Done (Failed (errors_WithDetail Sample.X (errBadActionType Sample.X)
                        ("unknown action type " +:+ fmt_q Sample.X "bogus_type"
                           +:+ " on action " +:+ itoa 1))).
Proof.
  split; [|split; [|split]].
  - eexists. split; reflexivity.
  - reflexivity.
  - reflexivity.
  - vm_compute. discriminate.
Qed.

Lemma bogus_type_unregistered : "bogus_type"%string ∉ registered_types.
Proof.
  unfold registered_types. rewrite !not_elem_of_cons.
  repeat split; try discriminate. apply not_elem_of_nil.
Qed.

(** C6 (amended), on the request of the specification's scenario:
    a good [spend_account] action, then one of type ["bogus_type"]. *)
Lemma buildSingle_unknown_action_type_witness :
  buildSingle Sample.X None Sample.req_good_then_bogus Sample.w0
  = (Done (Failed (Sample.with_detail (Sample.new "bad action type")
                     ("unknown action type " +:+ Sample.quote "bogus_type"
                        +:+ " on action 1"))),
     Sample.w0, [EvFilterAliases None Sample.req_good_then_bogus])
  /\ (forall tag : string,
        actionDecoder Sample.X tag = None <-> tag ∉ registered_types)
  /\ length registered_types = 9 /\ NoDup registered_types.
Proof.
  apply (buildSingle_unknown_action_type Sample.X None
           Sample.req_good_then_bogus Sample.req_good_then_bogus
           Sample.w0 Sample.w0
           [Sample.action "spend_account" "a"] []
           (Sample.action "bogus_type" "q") ["spend_account"%string]
           "bogus_type");
    try reflexivity.
  exact bogus_type_unregistered.
Defined.

(** C7, on a template without a transaction. *)
Lemma submitSingle_missing_raw_tx_witness :
  submitSingle Sample.X (Some Sample.Background) Sample.tpl_unbuilt Sample.w0
  = (Done (Failed (Sample.new "missing raw transaction")), Sample.w0, [])
  /\ submit Sample.X (Some Sample.Background) Sample.tpl_unbuilt Sample.w0
     = (Done (DataNil, [Sample.new "missing raw transaction"]),
        Sample.w0, [EvLog LError "submit single tx"]).
Proof.
  apply (submitSingle_missing_raw_tx Sample.X (Some Sample.Background)
           Sample.tpl_unbuilt Sample.w0).
  reflexivity.
Defined.

(** C8, on a request signed with the wrong credential. *)
Lemma signSubmit_sign_failure_witness :
  signSubmit Sample.X (Some Sample.Background)
             (mkSignSubmitRequest "wrong" Sample.tpl_built) Sample.w0
  = (Done (DataNil, [Sample.new "bad credential"]), Sample.w0,
     [EvSign (Some Sample.Background) Sample.tpl_built "wrong";
      EvLog LError "fail on sign transaction."]).
Proof.
  apply (signSubmit_sign_failure Sample.X (Some Sample.Background)
           (mkSignSubmitRequest "wrong" Sample.tpl_built)
           Sample.w0 Sample.w0 (Sample.new "bad credential") Sample.tpl_built).
  reflexivity.
Defined.

(** C9 (as stated, refuted). From the lower bound [2^64 - 1] the first
    height awaited and fetched is 0, a height below the lower bound;
    the second is 1. *)
Lemma waitForTxInBlock_wraps_below_lower_bound :
  (0 <= Sample.max_uint64 < 2 ^ 64)%Z
  /\ awaited_heights
       (events_of (waitForTxInBlock Sample.X 2 (Some Sample.Background) 42
                     Sample.max_uint64 Sample.w0)) = [0%Z; 1%Z]
  /\ fetched_heights
       (events_of (waitForTxInBlock Sample.X 2 (Some Sample.Background) 42
                     Sample.max_uint64 Sample.w0)) = [0%Z; 1%Z]
  /\ ~ Forall (fun h => (Sample.max_uint64 < h)%Z)
         (awaited_heights
            (events_of (waitForTxInBlock Sample.X 2 (Some Sample.Background) 42
                          Sample.max_uint64 Sample.w0))).
Proof.
  split; [|split; [|split]].
  - unfold Sample.max_uint64. change (2 ^ 64)%Z with 18446744073709551616%Z. lia.
  - vm_compute. reflexivity.
  - vm_compute. reflexivity.
  - assert (Hrun : awaited_heights
              (events_of (waitForTxInBlock Sample.X 2 (Some Sample.Background) 42
                            Sample.max_uint64 Sample.w0)) = [0%Z; 1%Z])
      by (vm_compute; reflexivity).
    rewrite Hrun. intros Hall. apply Forall_cons_1 in Hall as [Hlt _].
    unfold Sample.max_uint64 in Hlt. lia.
Qed.

(** C9 (amended), on three rounds from height 7: heights 8, 9, 10. *)
Lemma waitForTxInBlock_heights_increase_witness :
  awaited_heights
    (events_of (waitForTxInBlock Sample.X 3 (Some Sample.Background) 42 7 Sample.w0))
  = [8%Z; 9%Z; 10%Z]
  /\ NoDup (awaited_heights
              (events_of (waitForTxInBlock Sample.X 3 (Some Sample.Background)
                            42 7 Sample.w0))).
Proof.
  assert (Hlo : (0 <= 7)%Z) by lia.
  assert (Hhi : (7 + Z.of_nat (length (awaited_heights
                   (events_of (waitForTxInBlock Sample.X 3%nat
                      (Some Sample.Background) 42%nat 7 Sample.w0)))) < 2 ^ 64)%Z)
    by (vm_compute; reflexivity).
  destruct (waitForTxInBlock_heights_increase Sample.X 3
              (Some Sample.Background) 42 7 Sample.w0 Hlo Hhi)
    as (Heq & _ & _ & _ & Hnodup & _).
  split; [|exact Hnodup].
  rewrite Heq. vm_compute. reflexivity.
Defined.

(** ** Further properties of the handlers *)

Section MoreProperties.

Context {ctxT error Action TxData legacyTx Hash Block : Type}.
Context {SigningInstruction TemplateMeta HttpResponse Response GoTime W : Type}.
Variable X : Extern ctxT error Action TxData legacyTx Hash Block
                    SigningInstruction TemplateMeta HttpResponse Response GoTime W.

Abbreviation ev' :=
  (Event ctxT Action TxData legacyTx SigningInstruction TemplateMeta GoTime).
Abbreviation tmpl' := (Template legacyTx SigningInstruction TemplateMeta).

(** *** The decoding loop *)

Lemma decode_actions_step (i : nat) (act : ActionSpec) (rest : list ActionSpec)
    (acc : list Action) (a : Action) :
  decodes_to X act a ->
  decode_actions X i (act :: rest) acc = decode_actions X (S i) rest (acc ++ [a]).
Proof.
  intros (typ & decoder & b & Htype & Hdec & Hmarshal & Hok).
  simpl. rewrite Htype, Hdec, Hmarshal, Hok. reflexivity.
Qed.

Lemma decode_actions_ok_inv (acts : list ActionSpec) :
  forall (i : nat) (acc actions : list Action),
    decode_actions X i acts acc = OK actions ->
    exists decoded : list Action,
      actions = acc ++ decoded /\ Forall2 (decodes_to X) acts decoded.
Proof.
  induction acts as [|act rest IH]; intros i acc actions Hrun; simpl in Hrun.
  - exists []. inversion Hrun; subst. rewrite app_nil_r. split; [reflexivity|constructor].
  - destruct (type_string act) as [typ|] eqn:Htype; [|discriminate].
    destruct (actionDecoder X typ) as [decoder|] eqn:Hdec; [|discriminate].
    destruct (json_Marshal X act) as [b [e|]] eqn:Hmarshal; [discriminate|].
    destruct (decoder b) as [a [e|]] eqn:Hok; [discriminate|].
    destruct (IH _ _ _ Hrun) as (decoded & -> & Hall).
    exists (a :: decoded). rewrite <- app_assoc. split; [reflexivity|].
    constructor; [|exact Hall]. exists typ, decoder, b. auto.
Qed.

(** X1. When the loop of [buildSingle] succeeds, it has decoded every
    action of the request, in the order of the request: as many
    [Action]s as [ActionSpec]s, the one at index [i] being what the
    decoder registered for the type of [acts[i]] makes of its JSON. *)
Theorem decode_actions_in_request_order (acts : list ActionSpec)
    (actions : list Action) :
  decode_actions X 0 acts [] = OK actions ->
  length actions = length acts
  /\ (forall (i : nat) (act : ActionSpec),
        acts !! i = Some act ->
        exists a : Action, actions !! i = Some a /\ decodes_to X act a).
Proof.
  intros Hrun.
  destruct (decode_actions_ok_inv acts 0 [] actions Hrun) as (decoded & -> & Hall).
  simpl. split; [symmetry; exact (Forall2_length _ _ _ Hall)|].
  intros i act Hact.
  destruct (Forall2_lookup_l _ _ _ _ _ Hall Hact) as (a & Ha & Hdec). eauto.
Qed.

(** X2. When the loop of [buildSingle] fails, it fails at the first
    action it cannot take: every action before it decodes, and the error
    is that action's: a missing type, an unknown type, the bare error of
    [json.Marshal], or a decoder error, the three client errors carrying
    that action's index. *)
Theorem decode_actions_fails_at_first_rejected (acts : list ActionSpec) (e : error) :
  decode_actions X 0 acts [] = Failed e ->
  exists (pre post : list ActionSpec) (act : ActionSpec) (decoded : list Action),
    acts = pre ++ act :: post
    /\ decode_actions X 0 pre [] = OK decoded
    /\ rejected_with X (length pre) act e.
Proof.
  assert (Hgen : forall (l : list ActionSpec) (i : nat) (acc : list Action),
             decode_actions X i l acc = Failed e ->
             exists (pre post : list ActionSpec) (act : ActionSpec)
                    (decoded : list Action),
               l = pre ++ act :: post
               /\ decode_actions X i pre acc = OK decoded
               /\ rejected_with X (i + length pre) act e).
  { induction l as [|act rest IH]; intros i acc Hrun; simpl in Hrun; [discriminate|].
    destruct (type_string act) as [typ|] eqn:Htype.
    2:{ exists [], rest, act, acc. simpl. rewrite Nat.add_0_r.
        split; [reflexivity|]. split; [reflexivity|].
        left. split; [exact Htype|congruence]. }
    destruct (actionDecoder X typ) as [decoder|] eqn:Hdec.
    2:{ exists [], rest, act, acc. simpl. rewrite Nat.add_0_r.
        split; [reflexivity|]. split; [reflexivity|].
        right; left. exists typ. split; [exact Htype|]. split; [exact Hdec|congruence]. }
    destruct (json_Marshal X act) as [b [e1|]] eqn:Hmarshal.
    { exists [], rest, act, acc. simpl. rewrite Nat.add_0_r.
      split; [reflexivity|]. split; [reflexivity|].
      right; right; left. exists typ, decoder, b.
      split; [exact Htype|]. split; [exact Hdec|]. congruence. }
    destruct (decoder b) as [a [err|]] eqn:Hok.
    { exists [], rest, act, acc. simpl. rewrite Nat.add_0_r.
      split; [reflexivity|]. split; [reflexivity|].
      right; right; right. exists typ, decoder, b, a, err.
      repeat (split; [assumption|]). congruence. }
    destruct (IH _ _ Hrun) as (pre & post & act' & decoded & -> & Hpre & Hrej).
    exists (act :: pre), post, act', decoded. split; [reflexivity|]. split.
    - simpl. rewrite Htype, Hdec, Hmarshal, Hok. exact Hpre.
    - simpl. replace (i + S (length pre)) with (S i + length pre) by lia. exact Hrej. }
  intros Hrun. destruct (Hgen acts 0 [] Hrun) as (pre & post & act & decoded & H1 & H2 & H3).
  exists pre, post, act, decoded. auto.
Qed.

(** *** [buildSingle] after the loop *)

(** One run of [buildSingle] whose alias filtering and decoding succeed,
    in terms of what the assembly routine returns. *)
Lemma buildSingle_run (ctx : Ctx) (req req1 : BuildRequest TxData)
    (w w1 w2 w3 : W) (actions : list Action) (now : GoTime)
    (tpl : option tmpl') (err : option error) :
  filterAliases X ctx req w = ((None, req1), w1) ->
  decode_actions X 0 (Actions req1) [] = OK actions ->
  time_Now X w1 = (now, w2) ->
  txbuilder_Build X ctx (Tx req1) actions
    (time_Add X now (if decide (TTL req1 = 0%Z) then defaultTxTTL else TTL req1)) w2
  = ((tpl, err), w3) ->
  buildSingle X ctx req w
  = (match result_of (format_action_error X err w3) with
     | Panicked what => Panicked what
     | Done (Some e) => Done (Failed e)
     | Done None =>
         match tpl with
         | None => Panicked "nil pointer dereference"
         | Some tpl =>
             Done (OK (mkTemplate (Transaction tpl)
                         (Some (default [] (SigningInstructions tpl)))
                         (Meta tpl)))
         end
     end,
     w3,
     [EvFilterAliases ctx req;
      EvBuild ctx (Tx req1) actions
        (time_Add X now (if decide (TTL req1 = 0%Z) then defaultTxTTL else TTL req1))]).
Proof.
  intros Hfilter Hdecode Hnow Hbuild.
  unfold buildSingle, bind, call, quiet, ret, result_of.
  rewrite Hfilter, Hdecode, Hnow. simpl. rewrite Hbuild.
  destruct (format_action_error_silent X err w3) as [r ->]. simpl.
  destruct r as [[e|]|what]; simpl; [reflexivity| |reflexivity].
  destruct tpl as [[tx [sis|] meta]|]; reflexivity.
Qed.

(** X3. An error of alias filtering ends [buildSingle] at once: the
    error is returned as it is (not wrapped, not tagged with an index),
    and nothing is decoded or assembled. *)
Theorem buildSingle_filter_error_verbatim (ctx : Ctx) (req req1 : BuildRequest TxData)
    (w w1 : W) (e : error) :
  filterAliases X ctx req w = ((Some e, req1), w1) ->
  buildSingle X ctx req w = (Done (Failed e), w1, [EvFilterAliases ctx req]).
Proof.
  intros Hfilter. unfold buildSingle, bind, call, ret. rewrite Hfilter. reflexivity.
Qed.

(** X4. Whatever the collaborators do, one run of [buildSingle] calls
    alias filtering once and the assembly routine at most once, in that
    order, both with the context it was given, and calls nothing else:
    it never signs, never submits and never reads the chain. *)
Theorem buildSingle_calls (ctx : Ctx) (req : BuildRequest TxData) (w : W) :
  events_of (buildSingle X ctx req w) = [EvFilterAliases ctx req]
  \/ exists (tx : option TxData) (actions : list Action) (maxTime : GoTime),
       events_of (buildSingle X ctx req w)
       = [EvFilterAliases ctx req; EvBuild ctx tx actions maxTime].
Proof.
  destruct (filterAliases X ctx req w) as [[[e|] req1] w1] eqn:Hfilter.
  { left. rewrite (buildSingle_filter_error_verbatim ctx req req1 w w1 e Hfilter).
    reflexivity. }
  destruct (decode_actions X 0 (Actions req1) []) as [actions|e] eqn:Hdecode.
  2:{ left. rewrite (buildSingle_decode_failed X ctx req req1 w w1 e Hfilter Hdecode).
      reflexivity. }
  destruct (time_Now X w1) as [now w2] eqn:Hnow.
  destruct (txbuilder_Build X ctx (Tx req1) actions
              (time_Add X now (if decide (TTL req1 = 0%Z) then defaultTxTTL
                               else TTL req1)) w2) as [[tpl err] w3] eqn:Hbuild.
  right. eexists _, _, _.
  rewrite (buildSingle_run ctx req req1 w w1 w2 w3 actions now tpl err
             Hfilter Hdecode Hnow Hbuild).
  reflexivity.
Qed.

(** X5. A TTL other than zero is used as it is, a negative one
    included: the assembly routine is called with
    [maxTime = time.Now().Add(ttl)]. *)
Theorem buildSingle_nonzero_ttl (ctx : Ctx) (req req1 : BuildRequest TxData)
    (w w1 w2 : W) (actions : list Action) (now : GoTime) :
  filterAliases X ctx req w = ((None, req1), w1) ->
  decode_actions X 0 (Actions req1) [] = OK actions ->
  time_Now X w1 = (now, w2) ->
  TTL req1 <> 0%Z ->
  events_of (buildSingle X ctx req w)
  = [EvFilterAliases ctx req;
     EvBuild ctx (Tx req1) actions (time_Add X now (TTL req1))].
Proof.
  intros Hfilter Hdecode Hnow Httl.
  destruct (txbuilder_Build X ctx (Tx req1) actions
              (time_Add X now (if decide (TTL req1 = 0%Z) then defaultTxTTL
                               else TTL req1)) w2) as [[tpl err] w3] eqn:Hbuild.
  rewrite (buildSingle_run ctx req req1 w w1 w2 w3 actions now tpl err
             Hfilter Hdecode Hnow Hbuild).
  unfold events_of. simpl. destruct (decide (TTL req1 = 0%Z)); [contradiction|reflexivity].
Qed.

Lemma format_inner_errors_fold (errs : list error) :
  forall s : slice HttpResponse,
    fold_left (fun formattedErrs innerErr =>
                 slice_append formattedErrs (errorFormatter_Format X innerErr))
              errs s
    = match errs with
      | [] => s
      | _ => Some (default [] s ++ (errorFormatter_Format X <$> errs))
      end.
Proof.
  induction errs as [|e errs IH]; intros s; [reflexivity|].
  simpl. rewrite IH. unfold slice_append. destruct errs as [|e' errs]; simpl.
  - reflexivity.
  - rewrite <- app_assoc. reflexivity.
Qed.

(** X6. When the assembly routine fails with an action error (root
    [txbuilder.ErrAction]) whose data holds the inner errors,
    [buildSingle] fails with that error, its ["actions"] data replaced by
    the formatted inner errors: one response per inner error, in the
    same order, and the nil slice when there is none. A template
    returned beside the error is dropped. *)
Theorem buildSingle_action_error_formatted (ctx : Ctx) (req req1 : BuildRequest TxData)
    (w w1 w2 w3 : W) (actions : list Action) (now : GoTime)
    (tpl : option tmpl') (e : error) (errs : list error) :
  filterAliases X ctx req w = ((None, req1), w1) ->
  decode_actions X 0 (Actions req1) [] = OK actions ->
  time_Now X w1 = (now, w2) ->
  txbuilder_Build X ctx (Tx req1) actions
    (time_Add X now (if decide (TTL req1 = 0%Z) then defaultTxTTL else TTL req1)) w2
  = ((tpl, Some e), w3) ->
  error_eqb X (errors_Root X e) (ErrAction X) = true ->
  errors_Data X e !! "actions"%string = Some (IErrors errs) ->
  result_of (buildSingle X ctx req w)
  = Done (Failed (errors_WithData X e "actions"
                    (IResponses (match errs with
                                 | [] => None
                                 | _ => Some (errorFormatter_Format X <$> errs)
                                 end)))).
Proof.
  intros Hfilter Hdecode Hnow Hbuild Hroot Hdata.
  rewrite (buildSingle_run ctx req req1 w w1 w2 w3 actions now tpl (Some e)
             Hfilter Hdecode Hnow Hbuild).
  unfold result_of, format_action_error, ret. simpl. rewrite Hroot, Hdata. simpl.
  unfold format_inner_errors. rewrite format_inner_errors_fold.
  destruct errs; reflexivity.
Qed.

(** X7. When the assembly routine fails with an error of root
    [txbuilder.ErrAction] whose data has no [[]error] under ["actions"],
    [buildSingle] panics: the type assertion on the data is unchecked. *)
Theorem buildSingle_action_error_without_list_panics (ctx : Ctx)
    (req req1 : BuildRequest TxData) (w w1 w2 w3 : W) (actions : list Action)
    (now : GoTime) (tpl : option tmpl') (e : error) :
  filterAliases X ctx req w = ((None, req1), w1) ->
  decode_actions X 0 (Actions req1) [] = OK actions ->
  time_Now X w1 = (now, w2) ->
  txbuilder_Build X ctx (Tx req1) actions
    (time_Add X now (if decide (TTL req1 = 0%Z) then defaultTxTTL else TTL req1)) w2
  = ((tpl, Some e), w3) ->
  error_eqb X (errors_Root X e) (ErrAction X) = true ->
  (forall errs : list error,
     errors_Data X e !! "actions"%string <> Some (IErrors errs)) ->
  result_of (buildSingle X ctx req w) = Panicked "interface conversion".
Proof.
  intros Hfilter Hdecode Hnow Hbuild Hroot Hdata.
  rewrite (buildSingle_run ctx req req1 w w1 w2 w3 actions now tpl (Some e)
             Hfilter Hdecode Hnow Hbuild).
  unfold result_of, format_action_error, ret, panic. simpl. rewrite Hroot.
  destruct (errors_Data X e !! "actions"%string) as [[errs| |]|];
    try reflexivity.
  exfalso. exact (Hdata errs eq_refl).
Qed.

(** X8. An error of the assembly routine whose root is not
    [txbuilder.ErrAction] is returned as it is, and a template returned
    beside it is dropped. *)
Theorem buildSingle_other_error_verbatim (ctx : Ctx) (req req1 : BuildRequest TxData)
    (w w1 w2 w3 : W) (actions : list Action) (now : GoTime)
    (tpl : option tmpl') (e : error) :
  filterAliases X ctx req w = ((None, req1), w1) ->
  decode_actions X 0 (Actions req1) [] = OK actions ->
  time_Now X w1 = (now, w2) ->
  txbuilder_Build X ctx (Tx req1) actions
    (time_Add X now (if decide (TTL req1 = 0%Z) then defaultTxTTL else TTL req1)) w2
  = ((tpl, Some e), w3) ->
  error_eqb X (errors_Root X e) (ErrAction X) = false ->
  result_of (buildSingle X ctx req w) = Done (Failed e).
Proof.
  intros Hfilter Hdecode Hnow Hbuild Hroot.
  rewrite (buildSingle_run ctx req req1 w w1 w2 w3 actions now tpl (Some e)
             Hfilter Hdecode Hnow Hbuild).
  unfold result_of, format_action_error, ret. simpl. rewrite Hroot. reflexivity.
Qed.

(** X9. When the assembly routine returns neither a template nor an
    error, [buildSingle] panics on the nil template. *)
Theorem buildSingle_nil_template_panics (ctx : Ctx) (req req1 : BuildRequest TxData)
    (w w1 w2 w3 : W) (actions : list Action) (now : GoTime) :
  filterAliases X ctx req w = ((None, req1), w1) ->
  decode_actions X 0 (Actions req1) [] = OK actions ->
  time_Now X w1 = (now, w2) ->
  txbuilder_Build X ctx (Tx req1) actions
    (time_Add X now (if decide (TTL req1 = 0%Z) then defaultTxTTL else TTL req1)) w2
  = ((None, None), w3) ->
  result_of (buildSingle X ctx req w) = Panicked "nil pointer dereference".
Proof.
  intros Hfilter Hdecode Hnow Hbuild.
  rewrite (buildSingle_run ctx req req1 w w1 w2 w3 actions now None None
             Hfilter Hdecode Hnow Hbuild).
  reflexivity.
Qed.

(** X10. On success [buildSingle] returns the template of the assembly
    routine with its transaction and its other fields untouched; signing
    instructions that are present are kept as they are, and only nil
    ones become the empty slice. *)
Theorem buildSingle_keeps_template (ctx : Ctx) (req req1 : BuildRequest TxData)
    (w w1 w2 w3 : W) (actions : list Action) (now : GoTime) (tpl : tmpl') :
  filterAliases X ctx req w = ((None, req1), w1) ->
  decode_actions X 0 (Actions req1) [] = OK actions ->
  time_Now X w1 = (now, w2) ->
  txbuilder_Build X ctx (Tx req1) actions
    (time_Add X now (if decide (TTL req1 = 0%Z) then defaultTxTTL else TTL req1)) w2
  = ((Some tpl, None), w3) ->
  result_of (buildSingle X ctx req w)
  = Done (OK (mkTemplate (Transaction tpl)
                (Some (default [] (SigningInstructions tpl))) (Meta tpl)))
  /\ world_of (buildSingle X ctx req w) = w3
  /\ (forall sis : list SigningInstruction,
        SigningInstructions tpl = Some sis ->
        result_of (buildSingle X ctx req w) = Done (OK tpl)).
Proof.
  intros Hfilter Hdecode Hnow Hbuild.
  rewrite (buildSingle_run ctx req req1 w w1 w2 w3 actions now (Some tpl) None
             Hfilter Hdecode Hnow Hbuild).
  split; [reflexivity|]. split; [reflexivity|].
  intros sis Hsis. unfold result_of. simpl. rewrite Hsis.
  destruct tpl as [tx sis' meta]. simpl in *. subst. reflexivity.
Qed.

(** X11. The [build] handler runs [buildSingle] under the sub-context
    made from a fresh request id: every call it makes carries that
    sub-context, not the caller's context; and its response wraps what
    [buildSingle] returns. *)
Theorem build_uses_subcontext (ctx : Ctx) (buildReqs : BuildRequest TxData) (w : W) :
  Forall (fun e => event_ctx e
                   = Some (reqid_NewSubContext X ctx (reqid_New X w).1))
         (events_of (build X ctx buildReqs w))
  /\ events_of (build X ctx buildReqs w)
     = events_of (buildSingle X (reqid_NewSubContext X ctx (reqid_New X w).1)
                    buildReqs (reqid_New X w).2)
  /\ result_of (build X ctx buildReqs w)
     = match result_of (buildSingle X (reqid_NewSubContext X ctx (reqid_New X w).1)
                          buildReqs (reqid_New X w).2) with
       | Done (OK tmpl) => Done (resWrapper X (DataTemplate tmpl) [])
       | Done (Failed err) => Done (resWrapper X DataNil [err])
       | Panicked what => Panicked what
       end.
Proof.
  pose proof (buildSingle_calls (reqid_NewSubContext X ctx (reqid_New X w).1)
                buildReqs (reqid_New X w).2) as Hcalls.
  unfold build, bind, quiet, ret, events_of, result_of in *.
  destruct (reqid_New X w) as [id w1]. simpl in *.
  destruct (buildSingle X (reqid_NewSubContext X ctx id) buildReqs w1)
    as [[[[tmpl0|err]|what] w2] es]; simpl in *; rewrite ?app_nil_r;
    (split; [|split; reflexivity]);
    destruct Hcalls as [->|(tx & actions & maxTime & ->)];
    repeat constructor.
Qed.

(** *** Submission *)

(** X12. When pool admission rejects the transaction, [submit] answers
    with that error wrapped with "tx <id of the transaction>", after one
    call of [FinalizeTx] under the nil context; nothing is retried. *)
Theorem submit_rejection_wrapped_with_txid (ctx : Ctx) (tpl : tmpl')
    (tx : legacyTx) (w w1 : W) (e : error) :
  Transaction tpl = Some tx ->
  txbuilder_FinalizeTx X None (Some tx) w = (Some e, w1) ->
  submit X ctx tpl w
  = (Done (resWrapper X DataNil
             [errors_Wrap X e (Some ("tx " +:+ hash_String X (tx_ID X tx)))]),
     w1, [EvFinalizeTx None (Some tx); EvLog LError "submit single tx"]).
Proof.
  intros Htx Hfinalize. unfold submit, submitSingle, bind, call, emit, ret.
  rewrite Htx, Hfinalize. reflexivity.
Qed.

(** X13. When pool admission accepts the transaction, [submit] answers
    with a map whose only key is ["txid"], bound to the string of the
    transaction's id, after one call of [FinalizeTx] under the nil
    context. *)
Theorem submit_success_txid (ctx : Ctx) (tpl : tmpl') (tx : legacyTx) (w w1 : W) :
  Transaction tpl = Some tx ->
  txbuilder_FinalizeTx X None (Some tx) w = (None, w1) ->
  exists m : gmap string string,
    submit X ctx tpl w
    = (Done (resWrapper X (DataTxid m) []), w1,
       [EvFinalizeTx None (Some tx); EvLog LInfo "submit single tx"])
    /\ m !! "txid"%string = Some (hash_String X (tx_ID X tx))
    /\ dom m = {[ "txid"%string ]}.
Proof.
  intros Htx Hfinalize.
  exists {[ "txid"%string := hash_String X (tx_ID X tx) ]}.
  split; [|split].
  - unfold submit, submitSingle, bind, call, emit, ret.
    rewrite Htx, Hfinalize. reflexivity.
  - apply lookup_singleton_eq.
  - apply dom_singleton_L.
Qed.

(** X14. Whatever the collaborators return, [submitSingle], [submit],
    [signSubmit] and [finalizeTxWait] return: none of them panics (on
    the non-nil template the handlers are given). *)
Theorem submission_never_panics (ctx : Ctx) (tpl : tmpl')
    (x : SignSubmitRequest legacyTx SigningInstruction TemplateMeta)
    (waitUntil : string) (w : W) :
  (exists r, result_of (submitSingle X ctx tpl w) = Done r)
  /\ (exists resp, result_of (submit X ctx tpl w) = Done resp)
  /\ (exists resp, result_of (signSubmit X ctx x w) = Done resp)
  /\ (exists err, result_of (finalizeTxWait X ctx tpl waitUntil w) = Done err).
Proof.
  assert (Hsingle : forall c t w0, exists r, result_of (submitSingle X c t w0) = Done r).
  { intros c t w0. unfold submitSingle, bind, call, ret, result_of.
    destruct (Transaction t) as [tx|]; [|eauto].
    destruct (txbuilder_FinalizeTx X c (Some tx) w0) as [[e|] w1]; simpl; eauto. }
  split; [apply Hsingle|]. split; [|split].
  - destruct (Hsingle None tpl w) as [r Hr].
    unfold submit, bind, emit, ret, result_of in *.
    destruct (submitSingle X None tpl w) as [[r0 w1] es]. simpl in Hr. subst r0.
    destruct r; simpl; eauto.
  - unfold signSubmit, bind, call, emit, ret, result_of.
    destruct (txbuilder_Sign X ctx (Txs x) (Auth x) w) as [[[e|] txs] w1];
      simpl; [eauto|].
    destruct (Hsingle None txs w1) as [r Hr]. unfold result_of in Hr.
    destruct (submitSingle X None txs w1) as [[r0 w2] es]. simpl in Hr. subst r0.
    destruct r; simpl; eauto.
  - destruct (chain_Height X w) as [h w1] eqn:Hh.
    destruct (txbuilder_FinalizeTx X ctx (Transaction tpl) w1) as [err w2] eqn:Hf.
    rewrite (finalizeTxWait_is_finalize X ctx tpl waitUntil w w1 w2 h err Hh Hf).
    eauto.
Qed.

(** X15. When the sign stage succeeds, [signSubmit] is [submit] on the
    template as [Sign] left it, run on the node as [Sign] left it: same
    response, same final node, and the calls of [submit] after those of
    the sign stage. *)
Theorem signSubmit_is_sign_then_submit (ctx : Ctx)
    (x : SignSubmitRequest legacyTx SigningInstruction TemplateMeta)
    (w w1 : W) (txs : tmpl') :
  txbuilder_Sign X ctx (Txs x) (Auth x) w = ((None, txs), w1) ->
  result_of (signSubmit X ctx x w) = result_of (submit X ctx txs w1)
  /\ world_of (signSubmit X ctx x w) = world_of (submit X ctx txs w1)
  /\ events_of (signSubmit X ctx x w)
     = EvSign ctx (Txs x) (Auth x) :: EvLog LInfo "Sign Transaction complete."
         :: events_of (submit X ctx txs w1).
Proof.
  intros Hsign.
  unfold signSubmit, submit, bind, call, emit, ret, result_of, world_of, events_of.
  rewrite Hsign. simpl.
  destruct (submitSingle X None txs w1) as [[[[m|e]|what] w2] es]; simpl; auto.
Qed.

(** X16. [finalizeTxWait] does not read [waitUntil]: two calls that
    differ in it only are the same run. Its calls are the read of the
    height, the log line and one [FinalizeTx] on the template's
    transaction as it is, a nil one included (there is no
    missing-transaction check as in [submitSingle]). *)
Theorem finalizeTxWait_ignores_waitUntil (ctx : Ctx) (txTemplate : tmpl')
    (waitUntil1 waitUntil2 : string) (w : W) :
  finalizeTxWait X ctx txTemplate waitUntil1 w
  = finalizeTxWait X ctx txTemplate waitUntil2 w
  /\ events_of (finalizeTxWait X ctx txTemplate waitUntil1 w)
     = [EvHeight; EvLog LInfo "Starting to finalize transaction";
        EvFinalizeTx ctx (Transaction txTemplate)]
  /\ result_of (finalizeTxWait X ctx txTemplate waitUntil1 w)
     = Done (txbuilder_FinalizeTx X ctx (Transaction txTemplate)
               (chain_Height X w).2).1.
Proof.
  destruct (chain_Height X w) as [h w1] eqn:Hh.
  destruct (txbuilder_FinalizeTx X ctx (Transaction txTemplate) w1) as [err w2] eqn:Hf.
  rewrite !(finalizeTxWait_is_finalize X ctx txTemplate _ w w1 w2 h err Hh Hf).
  simpl. rewrite Hf. auto.
Qed.

(** *** The wait loop *)

Lemma wait_loop_error_height (fuel : nat) :
  forall (ctx : Ctx) (tx : legacyTx) (H : Z) (w : W) (h : Z) (e : error),
    result_of (wait_loop X fuel ctx tx H w) = Done (Some (h, Some e)) -> h = 0%Z.
Proof.
  induction fuel as [|fuel IH]; intros ctx tx H w h e; [discriminate|].
  cbn [wait_loop]. unfold bind, emit, quiet, call, ret, panic, result_of.
  repeat case_match; simpl; intros Hr; simplify_eq; try reflexivity.
  match goal with
  | Hrec : wait_loop X fuel ?c ?t ?h0 ?w3 = _ |- _ =>
      apply (IH c t h0 w3 h e); unfold result_of; rewrite Hrec; reflexivity
  end.
Qed.

(** X17. Whenever [waitForTxInBlock] returns an error, the height it
    returns is 0. *)
Theorem waitForTxInBlock_error_height_zero (fuel : nat) (ctx : Ctx)
    (tx : legacyTx) (H : Z) (w : W) (h : Z) (e : error) :
  result_of (waitForTxInBlock X fuel ctx tx H w) = Done (Some (h, Some e)) ->
  h = 0%Z.
Proof.
  intros Hr. apply (wait_loop_error_height fuel ctx tx H w h e).
  unfold waitForTxInBlock, bind, emit, result_of in *.
  destruct (wait_loop X fuel ctx tx H w) as [[r w1] es]. exact Hr.
Qed.

Lemma wait_loop_confirmed
    (Herr : forall (c : ctxT) (height : Z) (w w1 : W),
        select_wait X c height w = (CtxDone, w1) -> (ctx_Err X c w1).1 <> None)
    (fuel : nat) :
  forall (ctx : Ctx) (tx : legacyTx) (H : Z) (w : W) (h : Z),
    result_of (wait_loop X fuel ctx tx H w) = Done (Some (h, None)) ->
    exists (es0 : list ev') (w0 : W) (b : Block),
      events_of (wait_loop X fuel ctx tx H w)
      = es0 ++ [EvBlockWaiter h; EvGetBlockByHeight h]
      /\ chain_GetBlockByHeight X h w0
         = ((Some b, None), world_of (wait_loop X fuel ctx tx H w))
      /\ block_confirms X b tx = true.
Proof.
  induction fuel as [|fuel IH]; intros ctx tx H w h; [discriminate|].
  cbn [wait_loop]. unfold bind, emit, quiet, call, ret, panic.
  unfold result_of, events_of, world_of.
  repeat case_match; simpl; intros Hr; simplify_eq.
  all: try match goal with
    | Hs : select_wait _ ?c ?h0 ?w0 = (CtxDone, ?w1),
      Hc : ctx_Err _ ?c ?w1 = (None, _) |- _ =>
        exfalso; apply (Herr c h0 w0 w1 Hs); rewrite Hc; reflexivity
    end.
  all: try match goal with
    | Hrec : wait_loop X _ ?c ?t ?h0 ?w3 = _ |- _ =>
        let es1 := fresh "es" in
        let wpre := fresh "wpre" in
        let b' := fresh "b" in
        destruct (IH c t h0 w3 h) as (es1 & wpre & b' & Hev & Hblock & Hconf);
        [unfold result_of; rewrite Hrec; reflexivity|];
        unfold events_of, world_of in Hev, Hblock; rewrite Hrec in Hev, Hblock;
        simpl in Hev, Hblock;
        eexists (_ :: _ :: _ :: es1), wpre, b'; simpl; rewrite Hev; eauto
    end.
  eexists [], _, _. simpl. eauto.
Qed.

(** X18. Provided [ctx.Err()] is not nil once the context is done (that
    is, when it is read after the [select] has taken the case of
    [ctx.Done()]; on a live context it may be nil, as in Go), a nil
    error of [waitForTxInBlock] means confirmation: the last two calls
    of the run await and fetch the block at the returned height, and
    that block holds a transaction with the awaited id. *)
Theorem waitForTxInBlock_nil_error_means_confirmed (fuel : nat) (ctx : Ctx)
    (tx : legacyTx) (H : Z) (w : W) (h : Z) :
  (forall (c : ctxT) (height : Z) (w0 w1 : W),
     select_wait X c height w0 = (CtxDone, w1) -> (ctx_Err X c w1).1 <> None) ->
  result_of (waitForTxInBlock X fuel ctx tx H w) = Done (Some (h, None)) ->
  exists (es0 : list ev') (w0 : W) (b : Block),
    events_of (waitForTxInBlock X fuel ctx tx H w)
    = es0 ++ [EvBlockWaiter h; EvGetBlockByHeight h]
    /\ chain_GetBlockByHeight X h w0
       = ((Some b, None), world_of (waitForTxInBlock X fuel ctx tx H w))
    /\ block_confirms X b tx = true.
Proof.
  intros Herr Hr.
  destruct (wait_loop_confirmed Herr fuel ctx tx H w h) as (es0 & w0 & b & Hev & Hb & Hc).
  { unfold waitForTxInBlock, bind, emit, result_of in *.
    destruct (wait_loop X fuel ctx tx H w) as [[r w1] es]. exact Hr. }
  unfold waitForTxInBlock, bind, emit, events_of, world_of in *.
  destruct (wait_loop X fuel ctx tx H w) as [[r w1] es]. simpl in *.
  exists (EvLog LPrint "waitForTxInBlock function" :: es0), w0, b.
  rewrite Hev. auto.
Qed.

Lemma wait_loop_resubmits (fuel : nat) :
  forall (ctx : Ctx) (tx : legacyTx) (H : Z) (w : W),
    Forall (fun call => call = (ctx, Some tx))
           (finalize_calls (events_of (wait_loop X fuel ctx tx H w)))
    /\ length (finalize_calls (events_of (wait_loop X fuel ctx tx H w)))
       <= length (fetched_heights (events_of (wait_loop X fuel ctx tx H w)))
    /\ length (fetched_heights (events_of (wait_loop X fuel ctx tx H w)))
       <= S (length (finalize_calls (events_of (wait_loop X fuel ctx tx H w)))).
Proof.
  induction fuel as [|fuel IH]; intros ctx tx H w.
  - simpl. split; [constructor|]. split; lia.
  - destruct (wait_loop X (S fuel) ctx tx H w) as [[r w'] es] eqn:Hrun.
    revert Hrun. cbn [wait_loop].
    unfold bind, emit, quiet, call, ret, panic, events_of.
    repeat case_match; intros Hrun; simplify_eq/=;
      try (split; [repeat constructor|]; split; lia).
    match goal with
    | Hrec : wait_loop X fuel ?c ?t ?h ?w3 = _ |- _ =>
        destruct (IH c t h w3) as (Hall & Hle & Hge);
        unfold events_of in Hall, Hle, Hge; rewrite Hrec in Hall, Hle, Hge;
        simpl in Hall, Hle, Hge
    end.
    split; [constructor; [reflexivity|exact Hall]|]. split; lia.
Qed.


(** X20. If the [select] of the first round takes the case of the
    block waiter (the next block has landed and the [select] did not
    take the case of [ctx.Done()]), the fetch succeeds and the block
    holds the transaction, the wait returns that block's height with a
    nil error, and re-submits nothing. *)
Theorem waitForTxInBlock_confirmed_in_next_block (fuel : nat) (c : ctxT)
    (tx : legacyTx) (H : Z) (w w1 w2 : W) (b : Block) :
  select_wait X c (uint64_incr H) w = (BlockLanded, w1) ->
  chain_GetBlockByHeight X (uint64_incr H) w1 = ((Some b, None), w2) ->
  block_confirms X b tx = true ->
  waitForTxInBlock X (S fuel) (Some c) tx H w
  = (Done (Some (uint64_incr H, None)), w2,
     [EvLog LPrint "waitForTxInBlock function";
      EvBlockWaiter (uint64_incr H); EvGetBlockByHeight (uint64_incr H)]).
Proof.
  intros Hsel Hget Hconf.
  unfold waitForTxInBlock. cbn [wait_loop].
  unfold bind, emit, quiet, call, ret. simpl.
  rewrite Hsel. simpl. rewrite Hget. simpl. rewrite Hconf. reflexivity.
Qed.


(** X22. If the block that landed cannot be fetched, the wait ends with
    the fetch error wrapped with "getting block that just landed"; the
    transaction is not re-submitted. *)
Theorem waitForTxInBlock_fetch_failure (fuel : nat) (c : ctxT) (tx : legacyTx)
    (H : Z) (w w1 w2 : W) (b : option Block) (e : error) :
  select_wait X c (uint64_incr H) w = (BlockLanded, w1) ->
  chain_GetBlockByHeight X (uint64_incr H) w1 = ((b, Some e), w2) ->
  waitForTxInBlock X (S fuel) (Some c) tx H w
  = (Done (Some (0%Z, Some (errors_Wrap X e
                              (Some "getting block that just landed"%string)))),
     w2,
     [EvLog LPrint "waitForTxInBlock function";
      EvBlockWaiter (uint64_incr H); EvGetBlockByHeight (uint64_incr H)]).
Proof.
  intros Hsel Hget.
  unfold waitForTxInBlock. cbn [wait_loop].
  unfold bind, emit, quiet, call, ret. simpl.
  rewrite Hsel. simpl. rewrite Hget. reflexivity.
Qed.

(** X23. If the block that landed does not hold the transaction and the
    pool takes it again, the loop goes on exactly as a loop started at
    that height on the node as it is then: same result, same final
    node, and its calls after the three of this round. *)
Theorem wait_loop_continues_after_miss (fuel : nat) (c : ctxT) (tx : legacyTx)
    (H : Z) (w w1 w2 w3 : W) (b : Block) :
  select_wait X c (uint64_incr H) w = (BlockLanded, w1) ->
  chain_GetBlockByHeight X (uint64_incr H) w1 = ((Some b, None), w2) ->
  block_confirms X b tx = false ->
  txbuilder_FinalizeTx X (Some c) (Some tx) w2 = (None, w3) ->
  result_of (wait_loop X (S fuel) (Some c) tx H w)
  = result_of (wait_loop X fuel (Some c) tx (uint64_incr H) w3)
  /\ world_of (wait_loop X (S fuel) (Some c) tx H w)
     = world_of (wait_loop X fuel (Some c) tx (uint64_incr H) w3)
  /\ events_of (wait_loop X (S fuel) (Some c) tx H w)
     = EvBlockWaiter (uint64_incr H) :: EvGetBlockByHeight (uint64_incr H)
         :: EvFinalizeTx (Some c) (Some tx)
         :: events_of (wait_loop X fuel (Some c) tx (uint64_incr H) w3).
Proof.
  intros Hsel Hget Hconf Hfin.
  cbn [wait_loop]. unfold bind, emit, quiet, call, ret, result_of, world_of, events_of.
  simpl. rewrite Hsel. simpl. rewrite Hget. simpl. rewrite Hconf. simpl.
  rewrite Hfin. simpl.
  destruct (wait_loop X fuel (Some c) tx (uint64_incr H) w3) as [[r w4] es].
  auto.
Qed.

End MoreProperties.

(** ** The further properties on the sample nodes *)

(** X1, on three actions of three types. *)
Lemma decode_actions_in_request_order_witness :
  length ["control_program"; "retire"; "issue"]%string
  = length (Actions Variants.req_marshal_ok_mixed)
  /\ (forall (i : nat) (act : ActionSpec),
        Actions Variants.req_marshal_ok_mixed !! i = Some act ->
        exists a : string,
          ["control_program"; "retire"; "issue"]%string !! i = Some a
          /\ decodes_to Sample.X act a).
Proof.
  apply (decode_actions_in_request_order Sample.X
           (Actions Variants.req_marshal_ok_mixed)
           ["control_program"; "retire"; "issue"]%string).
  reflexivity.
Defined.

(** X2, on two actions that both fail to decode. *)
Lemma decode_actions_fails_at_first_rejected_witness :
  exists (pre post : list ActionSpec) (act : ActionSpec) (decoded : list string),
    Actions Sample.req_two_bad = pre ++ act :: post
    /\ decode_actions Sample.X 0 pre [] = OK decoded
    /\ rejected_with Sample.X (length pre) act
         (errors_WithDetail Sample.X (errBadAction Sample.X)
            "bad payload on action 0").
Proof.
  apply (decode_actions_fails_at_first_rejected Sample.X
           (Actions Sample.req_two_bad)
           (errors_WithDetail Sample.X (errBadAction Sample.X)
              "bad payload on action 0")).
  reflexivity.
Defined.

(** X3, on a node whose alias filtering fails. *)
Lemma buildSingle_filter_error_verbatim_witness :
  buildSingle Variants.with_filter_failing None Sample.req_ok Sample.w0
  = (Done (Failed (Sample.new "alias not found")), Sample.w0,
     [EvFilterAliases None Sample.req_ok]).
Proof.
  apply (buildSingle_filter_error_verbatim Variants.with_filter_failing None
           Sample.req_ok Sample.req_ok Sample.w0 Sample.w0
           (Sample.new "alias not found")).
  reflexivity.
Defined.

(** X5, on a TTL of -1 ns at clock 1000. *)
Lemma buildSingle_nonzero_ttl_witness :
  events_of (buildSingle Sample.X None Variants.req_negative_ttl Sample.w0)
  = [EvFilterAliases None Variants.req_negative_ttl;
     EvBuild None (Tx Variants.req_negative_ttl) ["issue"%string]
       (time_Add Sample.X 1000%Z (TTL Variants.req_negative_ttl))]
  /\ time_Add Sample.X 1000%Z (TTL Variants.req_negative_ttl) = 999%Z.
Proof.
  split; [|reflexivity].
  apply (buildSingle_nonzero_ttl Sample.X None Variants.req_negative_ttl
           Variants.req_negative_ttl Sample.w0 Sample.w0 Sample.w0
           ["issue"%string] 1000%Z); try reflexivity.
  discriminate.
Defined.

(** X6, on an assembly failing with two inner errors. *)
Lemma buildSingle_action_error_formatted_witness :
  result_of (buildSingle (Variants.with_assembly (None, Some Variants.action_error))
               None Sample.req_ok Sample.w0)
  = Done (Failed (Sample.mkErr "errors occurred in one or more actions" [] []
                    ["insufficient funds"; "unknown asset"]%string
                    (Some ["insufficient funds"; "unknown asset"]%string))).
Proof.
  apply (buildSingle_action_error_formatted
           (Variants.with_assembly (None, Some Variants.action_error))
           None Sample.req_ok Sample.req_ok Sample.w0 Sample.w0 Sample.w0 Sample.w0
           ["spend_account"; "retire"]%string 1000%Z None Variants.action_error
           [Sample.new "insufficient funds"; Sample.new "unknown asset"]);
    reflexivity.
Defined.

(** X7, on an assembly failing with [ErrAction] itself. *)
Lemma buildSingle_action_error_without_list_panics_witness :
  result_of (buildSingle (Variants.with_assembly (None, Some Variants.bare_action_error))
               None Sample.req_ok Sample.w0)
  = Panicked "interface conversion".
Proof.
  apply (buildSingle_action_error_without_list_panics
           (Variants.with_assembly (None, Some Variants.bare_action_error))
           None Sample.req_ok Sample.req_ok Sample.w0 Sample.w0 Sample.w0 Sample.w0
           ["spend_account"; "retire"]%string 1000%Z None Variants.bare_action_error);
    try reflexivity.
  intros errs. vm_compute. discriminate.
Defined.

(** X8, on an assembly returning a template and another error. *)
Lemma buildSingle_other_error_verbatim_witness :
  result_of (buildSingle
               (Variants.with_assembly
                  (Some Variants.tpl_with_instructions, Some Variants.other_error))
               None Sample.req_ok Sample.w0)
  = Done (Failed Variants.other_error).
Proof.
  apply (buildSingle_other_error_verbatim
           (Variants.with_assembly
              (Some Variants.tpl_with_instructions, Some Variants.other_error))
           None Sample.req_ok Sample.req_ok Sample.w0 Sample.w0 Sample.w0 Sample.w0
           ["spend_account"; "retire"]%string 1000%Z
           (Some Variants.tpl_with_instructions) Variants.other_error);
    reflexivity.
Defined.

(** X9, on an assembly returning nil and nil. *)
Lemma buildSingle_nil_template_panics_witness :
  result_of (buildSingle (Variants.with_assembly (None, None))
               None Sample.req_ok Sample.w0)
  = Panicked "nil pointer dereference".
Proof.
  apply (buildSingle_nil_template_panics (Variants.with_assembly (None, None))
           None Sample.req_ok Sample.req_ok Sample.w0 Sample.w0 Sample.w0 Sample.w0
           ["spend_account"; "retire"]%string 1000%Z);
    reflexivity.
Defined.

(** X10, on an assembly returning a template with two signing
    instructions. *)
Lemma buildSingle_keeps_template_witness :
  result_of (buildSingle
               (Variants.with_assembly (Some Variants.tpl_with_instructions, None))
               None Sample.req_ok Sample.w0)
  = Done (OK Variants.tpl_with_instructions).
Proof.
  destruct (buildSingle_keeps_template
              (Variants.with_assembly (Some Variants.tpl_with_instructions, None))
              None Sample.req_ok Sample.req_ok Sample.w0 Sample.w0 Sample.w0 Sample.w0
              ["spend_account"; "retire"]%string 1000%Z
              Variants.tpl_with_instructions eq_refl eq_refl eq_refl eq_refl)
    as (_ & _ & Hkept).
  exact (Hkept ["first"; "second"]%string eq_refl).
Defined.

(** X12, on a pool that rejects transaction 42. *)
Lemma submit_rejection_wrapped_with_txid_witness :
  submit Variants.with_finalize_rejecting (Some Sample.Cancelled)
         Sample.tpl_built Sample.w0
  = (Done (DataNil,
           [Sample.mkErr "duplicate transaction" ["tx 42"%string] [] [] None]),
     Sample.w0, [EvFinalizeTx None (Some 42); EvLog LError "submit single tx"]).
Proof.
  apply (submit_rejection_wrapped_with_txid Variants.with_finalize_rejecting
           (Some Sample.Cancelled) Sample.tpl_built 42 Sample.w0 Sample.w0
           (Sample.new "duplicate transaction"));
    reflexivity.
Defined.

(** X13, on transaction 42. *)
Lemma submit_success_txid_witness :
  exists m : gmap string string,
    submit Sample.X (Some Sample.Cancelled) Sample.tpl_built Sample.w0
    = (Done (resWrapper Sample.X (DataTxid m) []), Sample.mkWorld 7 1000 [42],
       [EvFinalizeTx None (Some 42); EvLog LInfo "submit single tx"])
    /\ m !! "txid"%string = Some (hash_String Sample.X (tx_ID Sample.X 42))
    /\ dom m = {[ "txid"%string ]}.
Proof.
  apply (submit_success_txid Sample.X (Some Sample.Cancelled) Sample.tpl_built
           42 Sample.w0 (Sample.mkWorld 7 1000 [42]));
    reflexivity.
Defined.

(** X15, on a request signed with a good credential. *)
Lemma signSubmit_is_sign_then_submit_witness :
  result_of (signSubmit Sample.X (Some Sample.Background)
               (mkSignSubmitRequest "ok" Sample.tpl_built) Sample.w0)
  = result_of (submit Sample.X (Some Sample.Background)
                 (mkTemplate (Some 42) (Some ["signed"%string]) tt) Sample.w0).
Proof.
  destruct (signSubmit_is_sign_then_submit Sample.X (Some Sample.Background)
              (mkSignSubmitRequest "ok" Sample.tpl_built) Sample.w0 Sample.w0
              (mkTemplate (Some 42) (Some ["signed"%string]) tt) eq_refl)
    as (Hresult & _).
  exact Hresult.
Defined.

(** X17, on a node whose blocks cannot be fetched. *)
Lemma waitForTxInBlock_error_height_zero_witness :
  result_of (waitForTxInBlock Variants.with_lost_blocks 3
               (Some Sample.Background) 42 7 Sample.w0)
  = Done (Some (0%Z, Some (Sample.mkErr "block not found"
                             ["getting block that just landed"%string] [] [] None)))
  /\ 0%Z = 0%Z.
Proof.
  split; [reflexivity|].
  apply (waitForTxInBlock_error_height_zero Variants.with_lost_blocks 3
           (Some Sample.Background) 42 7 Sample.w0 0
           (Sample.mkErr "block not found"
              ["getting block that just landed"%string] [] [] None)).
  reflexivity.
Defined.

(** X18, on a node whose context has a nil [Err] while it is live, and
    where transaction 42 lands at height 9, waited for from height 7. *)
Lemma waitForTxInBlock_nil_error_means_confirmed_witness :
  (forall w : Sample.world,
     (ctx_Err GoContext.with_tx42_at_9 Sample.Background w).1 = None)
  /\ result_of (waitForTxInBlock GoContext.with_tx42_at_9 5
                  (Some Sample.Background) 42 7 Sample.w0)
     = Done (Some (9%Z, None))
  /\ exists (es0 : list (Event Sample.sctx string unit nat string unit Z))
            (w0 : Sample.world) (b : list nat),
       events_of (waitForTxInBlock GoContext.with_tx42_at_9 5
                    (Some Sample.Background) 42 7 Sample.w0)
       = es0 ++ [EvBlockWaiter 9; EvGetBlockByHeight 9]
       /\ chain_GetBlockByHeight GoContext.with_tx42_at_9 9 w0
          = ((Some b, None),
             world_of (waitForTxInBlock GoContext.with_tx42_at_9 5
                         (Some Sample.Background) 42 7 Sample.w0))
       /\ block_confirms GoContext.with_tx42_at_9 b 42 = true.
Proof.
  split; [reflexivity|]. split; [reflexivity|].
  apply (waitForTxInBlock_nil_error_means_confirmed GoContext.with_tx42_at_9 5
           (Some Sample.Background) 42 7 Sample.w0 9).
  - intros c height w0 w1 Hdone. destruct c; simpl in *; discriminate.
  - reflexivity.
Defined.

(** X20, on a node where transaction 42 lands at height 9, waited for
    from height 8 under a live context. *)
Lemma waitForTxInBlock_confirmed_in_next_block_witness :
  waitForTxInBlock Variants.with_tx42_at_9 1 (Some Sample.Background) 42 8 Sample.w0
  = (Done (Some (uint64_incr 8, None)), Sample.w0,
     [EvLog LPrint "waitForTxInBlock function";
      EvBlockWaiter (uint64_incr 8); EvGetBlockByHeight (uint64_incr 8)])
  /\ uint64_incr 8 = 9%Z.
Proof.
  split; [|reflexivity].
  apply (waitForTxInBlock_confirmed_in_next_block Variants.with_tx42_at_9 0
           Sample.Background 42 8 Sample.w0 Sample.w0 Sample.w0 [5; 42]);
    reflexivity.
Defined.


(** X22, on a node whose blocks cannot be fetched. *)
Lemma waitForTxInBlock_fetch_failure_witness :
  waitForTxInBlock Variants.with_lost_blocks 2 (Some Sample.Background) 42 7 Sample.w0
  = (Done (Some (0%Z, Some (errors_Wrap Variants.with_lost_blocks
                              (Sample.new "block not found")
                              (Some "getting block that just landed"%string)))),
     Sample.w0,
     [EvLog LPrint "waitForTxInBlock function";
      EvBlockWaiter (uint64_incr 7); EvGetBlockByHeight (uint64_incr 7)]).
Proof.
  apply (waitForTxInBlock_fetch_failure Variants.with_lost_blocks 1
           Sample.Background 42 7 Sample.w0 Sample.w0 Sample.w0 None
           (Sample.new "block not found"));
    reflexivity.
Defined.

(** X23, on the first round of a wait from height 7 for a transaction
    that lands at height 9. *)
Lemma wait_loop_continues_after_miss_witness :
  result_of (wait_loop Variants.with_tx42_at_9 3 (Some Sample.Background) 42 7 Sample.w0)
  = result_of (wait_loop Variants.with_tx42_at_9 2 (Some Sample.Background) 42
                 (uint64_incr 7) (Sample.mkWorld 7 1000 [42])).
Proof.
  destruct (wait_loop_continues_after_miss Variants.with_tx42_at_9 2
              Sample.Background 42 7 Sample.w0 Sample.w0 Sample.w0
              (Sample.mkWorld 7 1000 [42]) [5] eq_refl eq_refl eq_refl eq_refl)
    as (Hresult & _).
  exact Hresult.
Defined.
